(** * normalSound: the batch loudness normaliser of [main.py]

    A shallow embedding of [normalize_audio] (main.py, lines 41-99) and of
    the library functions it calls, followed by the properties of the
    progress model that the specification states.

    Conventions of the embedding.
    - A Python [str] is a Rocq [string]; its characters are code points
      below 256, among which the only decimal digits ([\d]) are [0]-[9].
    - A Python [float] is an instance of the interface [PyFloat].  Two
      instances are given: IEEE binary64 ([float], what CPython runs) and
      the exact rationals [Q].  Every property that does not depend on
      field laws is proved for every instance; the two that do are proved
      over [Q], rounding left aside.
    - The operating system is a parameter: what a launched command prints
      on its standard error, its exit status and the files present once it
      has exited.  A process prints finitely many lines and exits.
    - [os.path] is [posixpath]. *)

From Stdlib Require Import ZArith QArith Qfield Lqa Lia Bool List String Ascii.
From Stdlib Require Import Floats.PrimFloat Numbers.Cyclic.Int63.Uint63.
Import ListNotations.

Close Scope Q_scope.
Local Open Scope list_scope.
Local Open Scope string_scope.

(** ** Strings *)

Module Str.

(** [s.rfind(c)] for a one-character [c]: [None] stands for [-1]. *)
Fixpoint rfind (c : ascii) (s : string) : option nat :=
  match s with
  | EmptyString => None
  | String a rest =>
      match rfind c rest with
      | Some k => Some (S k)
      | None => if Ascii.eqb a c then Some 0 else None
      end
  end.

(** [s[:n]] and [s[n:]] for [0 <= n]. *)
Fixpoint take (n : nat) (s : string) : string :=
  match n, s with
  | S k, String a rest => String a (take k rest)
  | _, _ => EmptyString
  end.

Fixpoint drop (n : nat) (s : string) : string :=
  match n, s with
  | S k, String _ rest => drop k rest
  | _, _ => s
  end.

(** [s.startswith(c)] and [s.endswith(c)] for a one-character [c]. *)
Definition startswith (c : ascii) (s : string) : bool :=
  match s with
  | String a _ => Ascii.eqb a c
  | EmptyString => false
  end.

Fixpoint endswith (c : ascii) (s : string) : bool :=
  match s with
  | EmptyString => false
  | String a EmptyString => Ascii.eqb a c
  | String _ rest => endswith c rest
  end.

(** Some character of [s] differs from [c]. *)
Fixpoint has_other (c : ascii) (s : string) : bool :=
  match s with
  | EmptyString => false
  | String a rest => negb (Ascii.eqb a c) || has_other c rest
  end.

(** [c in s]. *)
Fixpoint mem (c : ascii) (s : string) : bool :=
  match s with
  | EmptyString => false
  | String a rest => Ascii.eqb a c || mem c rest
  end.

End Str.

(** ** [os.path], POSIX flavour *)

Module Path.

Definition sep : ascii := "/"%char.
Definition extsep : ascii := "."%char.

(** [posixpath.basename]: [i = p.rfind(sep) + 1; return p[i:]]. *)
Definition basename (p : string) : string :=
  match Str.rfind sep p with
  | Some k => Str.drop (S k) p
  | None => p
  end.

(** [posixpath.splitext], that is [genericpath._splitext(p, '/', None, '.')]:
    the extension starts at the last dot, when that dot comes after the
    last separator and some character between the two is not a dot. *)
Definition splitext (p : string) : string * string :=
  let filenameIndex :=
    match Str.rfind sep p with Some k => S k | None => 0 end in
  match Str.rfind extsep p with
  | Some dotIndex =>
      if (filenameIndex <=? dotIndex)%nat
         && Str.has_other extsep
              (Str.take (dotIndex - filenameIndex) (Str.drop filenameIndex p))
      then (Str.take dotIndex p, Str.drop dotIndex p)
      else (p, "")
  | None => (p, "")
  end.

(** [posixpath.join(a, b)]. *)
Definition join (a b : string) : string :=
  if Str.startswith sep b then b
  else if (a =? "") || Str.endswith sep a then a ++ b
  else a ++ "/" ++ b.

End Path.

(** ** The two regular expressions

    Both patterns are a literal followed by [(\d{2}):(\d{2}):(\d{2}\.\d{2})];
    they have one length and no alternative, so [re.search] returns the
    groups of the leftmost position at which the pattern matches. *)

Module Re.

Definition is_digit (c : ascii) : bool :=
  ((48 <=? nat_of_ascii c) && (nat_of_ascii c <=? 57))%nat.

(** The literal [lit] at the head of [s]: what follows it. *)
Fixpoint literal (lit s : string) : option string :=
  match lit, s with
  | EmptyString, _ => Some s
  | String a lit', String b s' =>
      if Ascii.eqb a b then literal lit' s' else None
  | String _ _, EmptyString => None
  end.

(** [\d{2}] at the head of [s]: the two digits and what follows them. *)
Definition digits2 (s : string) : option (string * string) :=
  match s with
  | String a (String b rest) =>
      if is_digit a && is_digit b
      then Some (String a (String b EmptyString), rest)
      else None
  | _ => None
  end.

(** The groups 1, 2 and 3 of a match. *)
Definition groups : Type := string * string * string.

(** [(\d{2}):(\d{2}):(\d{2}\.\d{2})] at the head of [s]. *)
Definition hms (s : string) : option groups :=
  match digits2 s with
  | Some (g1, s1) =>
  match literal ":" s1 with
  | Some s2 =>
  match digits2 s2 with
  | Some (g2, s3) =>
  match literal ":" s3 with
  | Some s4 =>
  match digits2 s4 with
  | Some (sec, s5) =>
  match literal "." s5 with
  | Some s6 =>
  match digits2 s6 with
  | Some (hun, _) => Some (g1, g2, sec ++ "." ++ hun)
  | None => None end
  | None => None end
  | None => None end
  | None => None end
  | None => None end
  | None => None end
  | None => None end.

(** The pattern [lit(\d{2}):(\d{2}):(\d{2}\.\d{2})] at the head of [s]. *)
Definition match_here (lit s : string) : option groups :=
  match literal lit s with
  | Some s' => hms s'
  | None => None
  end.

(** [re.search(lit + r"(\d{2}):(\d{2}):(\d{2}\.\d{2})", line)]. *)
Fixpoint search (lit line : string) : option groups :=
  match match_here lit line with
  | Some g => Some g
  | None =>
      match line with
      | EmptyString => None
      | String _ rest => search lit rest
      end
  end.

Definition duration_re : string := "Duration: ".
Definition time_re : string := "time=".

End Re.

(** ** Python floats *)

(** The operations of [float] that [normalize_audio] uses. *)
Class PyFloat (F : Type) : Type := {
  of_int : Z -> F;          (* the float of an int operand *)
  add : F -> F -> F;        (* x + y *)
  mul : F -> F -> F;        (* x * y *)
  div : F -> F -> F;        (* x / y, for y != 0 *)
  nonzero : F -> bool       (* bool(x) *)
}.

(** IEEE binary64, rounding to nearest even.  [of_int] is exact below 2^53. *)
#[export] Instance binary64 : PyFloat float := {
  of_int z :=
    if (z <? 0)%Z
    then PrimFloat.opp (PrimFloat.of_uint63 (Uint63.of_Z (- z)))
    else PrimFloat.of_uint63 (Uint63.of_Z z);
  add := PrimFloat.add;
  mul := PrimFloat.mul;
  div := PrimFloat.div;
  nonzero x := negb (PrimFloat.eqb x PrimFloat.zero)
}.

(** Exact rational arithmetic. *)
#[export] Instance exact : PyFloat Q := {
  of_int := inject_Z;
  add := Qplus;
  mul := Qmult;
  div := Qdiv;
  nonzero x := negb (Qeq_bool x 0)
}.

(** ** Exceptions, events and the monad of the embedding *)

Inductive exn : Type :=
| OSError                 (* subprocess.Popen could not start the command *)
| ValueError              (* float() of a text that is no number *)
| ZeroDivisionError       (* x / 0 *)
| CalledProcessError.     (* subprocess.CalledProcessError *)

Inductive result (A : Type) : Type :=
| Ok (a : A)
| Raised (e : exn).

Arguments Ok {A} a.
Arguments Raised {A} e.

(** What [print] writes, one constructor per call site. *)
Inductive message : Type :=
| Created (output_file : string)              (* line 93 *)
| Missing (output_file : string)              (* line 95 *)
| Failed (input_file : string) (e : exn).     (* line 97 *)

(** A process as the program sees it. *)
Record process : Type := {
  stderr : list string;          (* the lines of its standard error *)
  returncode : Z;                (* the status that [wait] returns *)
  leaves : string -> bool        (* the files that exist once it has exited *)
}.

(** The operating system: what launching [command] does when the files
    [exists] are present; [None] when the command cannot be started. *)
Definition system : Type := list string -> (string -> bool) -> option process.

Section Model.

Context {F : Type} `{PyFloat F}.

Inductive event : Type :=
| Popen (command : list string)      (* subprocess.Popen(command, ...) *)
| Set_progress (value : F)           (* progress_var.set(value) *)
| Print (m : message).               (* print(...) *)

(** The observable effects of a computation, in order, its result, and the
    files present when it stops. *)
Record outcome (A : Type) : Type := {
  trace : list event;
  value : result A;
  disk : string -> bool
}.

Arguments trace {A} o.
Arguments value {A} o.
Arguments disk {A} o.

Definition M (A : Type) : Type := (string -> bool) -> outcome A.

Definition ret {A} (a : A) : M A :=
  fun d => {| trace := []; value := Ok a; disk := d |}.

Definition raise {A} (e : exn) : M A :=
  fun d => {| trace := []; value := Raised e; disk := d |}.

Definition bind {A B} (m : M A) (k : A -> M B) : M B :=
  fun d =>
    let o := m d in
    match value o with
    | Ok a =>
        let o' := k a (disk o) in
        {| trace := (trace o ++ trace o')%list; value := value o'; disk := disk o' |}
    | Raised e => {| trace := trace o; value := Raised e; disk := disk o |}
    end.

Notation "x <- m ;; k" := (bind m (fun x => k))
  (at level 61, m at next level, right associativity).
Notation "m ;; k" := (bind m (fun _ => k))
  (at level 61, right associativity).

(** [try: m  except cls as e: handler e]. *)
Definition try_except {A} (m : M A) (cls : exn -> bool) (handler : exn -> M A) : M A :=
  fun d =>
    let o := m d in
    match value o with
    | Ok _ => o
    | Raised e =>
        if cls e then
          let o' := handler e (disk o) in
          {| trace := (trace o ++ trace o')%list; value := value o'; disk := disk o' |}
        else o
    end.

Definition lift {A} (r : result A) : M A :=
  fun d => {| trace := []; value := r; disk := d |}.

Definition emit (e : event) : M unit :=
  fun d => {| trace := [e]; value := Ok tt; disk := d |}.

Definition set_progress (x : F) : M unit := emit (Set_progress x).
Definition print (m : message) : M unit := emit (Print m).

(** [os.path.exists(p)]. *)
Definition path_exists (p : string) : M bool :=
  fun d => {| trace := []; value := Ok (d p); disk := d |}.

(** [subprocess.Popen(command, stderr=PIPE, universal_newlines=True)]. *)
Definition popen (os : system) (command : list string) : M process :=
  fun d =>
    {| trace := [Popen command];
       value := match os command d with
                | Some p => Ok p
                | None => Raised OSError
                end;
       disk := d |}.

(** [process.wait()]: the status is returned, never raised. *)
Definition wait (p : process) : M Z :=
  fun _ => {| trace := []; value := Ok (returncode p); disk := leaves p |}.

(** ** [float(text)] and [/] *)

Definition digit_value (c : ascii) : Z := Z.of_nat (nat_of_ascii c) - 48.

(** The value of the decimal numeral [s] after the digits read so far. *)
Fixpoint numeral (acc : Z) (s : string) : option Z :=
  match s with
  | EmptyString => Some acc
  | String c rest =>
      if Re.is_digit c then numeral (10 * acc + digit_value c) rest else None
  end.

(** [s] up to its first dot, and what follows that dot when there is one. *)
Fixpoint split_dot (s : string) : string * option string :=
  match s with
  | EmptyString => (EmptyString, None)
  | String c rest =>
      if Ascii.eqb c "."%char then (EmptyString, Some rest)
      else let (a, b) := split_dot rest in (String c a, b)
  end.

(** [float(s)] for the unsigned decimal texts [d+], [d+.d*] and [d*.d+], the
    only ones the patterns capture; the nearest float of [n / 10^k] is the
    quotient of the floats of [n] and [10^k] while [n < 2^53] and [k <= 22].
    Any other text is taken to raise [ValueError]. *)
Definition py_float (s : string) : result F :=
  let (int_part, frac) := split_dot s in
  let frac_part := match frac with Some f => f | None => EmptyString end in
  match int_part ++ frac_part with
  | EmptyString => Raised ValueError
  | digits =>
      match numeral 0 digits, frac with
      | Some n, None => Ok (of_int n)
      | Some n, Some _ =>
          Ok (div (of_int n) (of_int (10 ^ Z.of_nat (String.length frac_part))))
      | None, _ => Raised ValueError
      end
  end.

(** [x / y] on floats. *)
Definition truediv (x y : F) : result F :=
  if nonzero y then Ok (div x y) else Raised ZeroDivisionError.

(** [a / b] on ints: the nearest float of the quotient, which is the
    quotient of the two floats while [a] and [b] are below 2^53. *)
Definition int_truediv (a b : Z) : result F :=
  if (b =? 0)%Z then Raised ZeroDivisionError else Ok (div (of_int a) (of_int b)).

(** [bool(duration)] for [duration : Optional[float]]. *)
Definition truthy (duration : option F) : bool :=
  match duration with
  | Some d => nonzero d
  | None => false
  end.

(** ** [normalize_audio] *)

(** [float(m.group(1)) * 3600 + float(m.group(2)) * 60 + float(m.group(3))]
    (lines 76-80 and 84-86). *)
Definition seconds (g : Re.groups) : result F :=
  let '(g1, g2, g3) := g in
  match py_float g1 with
  | Raised e => Raised e
  | Ok h =>
  match py_float g2 with
  | Raised e => Raised e
  | Ok m =>
  match py_float g3 with
  | Raised e => Raised e
  | Ok s => Ok (add (add (mul h (of_int 3600)) (mul m (of_int 60))) s)
  end end end.

(** Lines 74-80: the duration after the line has been looked at. *)
Definition read_duration (duration : option F) (line : string) : M (option F) :=
  match Re.search Re.duration_re line with
  | Some g =>
      if negb (truthy duration)
      then d <- lift (seconds g) ;; ret (Some d)
      else ret duration
  | None => ret duration
  end.

(** Lines 82-88. *)
Definition report_time (i total_files : nat) (duration : option F) (line : string)
  : M unit :=
  match Re.search Re.time_re line, duration with
  | Some g, Some d =>
      if nonzero d then
        current_time <- lift (seconds g) ;;
        fraction <- lift (truediv current_time d) ;;
        share <- lift (int_truediv 1 (Z.of_nat total_files)) ;;
        base <- lift (int_truediv (Z.of_nat i) (Z.of_nat total_files)) ;;
        set_progress (add (mul fraction share) base)
      else ret tt
  | _, _ => ret tt
  end.

(** Lines 73-88: [for line in process.stderr], from the stored [duration]
    on; the duration stored at the end is returned. *)
Fixpoint scan (i total_files : nat) (duration : option F) (lines : list string)
  : M (option F) :=
  match lines with
  | [] => ret duration
  | line :: rest =>
      duration' <- read_duration duration line ;;
      report_time i total_files duration' line ;;
      scan i total_files duration' rest
  end.

Variable format_float : F -> string.     (* f'{x}' for a float x *)
Variable os : system.

(** Line 57. *)
Definition output_path (output_dir input_file : string) : string :=
  Path.join output_dir (fst (Path.splitext (Path.basename input_file)) ++ ".mp3").

(** Lines 58-68. *)
Definition ffmpeg_command (ffmpeg_path input_file : string) (target_lufs : F)
    (output_file : string) : list string :=
  [ ffmpeg_path;
    "-y";
    "-i";
    input_file;
    "-af";
    "loudnorm=I=" ++ format_float target_lufs ++ ":TP=-1:LRA=11";
    "-acodec";
    "libmp3lame";
    output_file ].

Definition is_CalledProcessError (e : exn) : bool :=
  match e with
  | CalledProcessError => true
  | _ => false
  end.

(** Lines 56-97: the body of the loop over the files. *)
Definition process_file (output_dir ffmpeg_path : string) (target_lufs : F)
    (total_files i : nat) (input_file : string) : M unit :=
  try_except
    (let output_file := output_path output_dir input_file in
     let command := ffmpeg_command ffmpeg_path input_file target_lufs output_file in
     process <- popen os command ;;
     scan i total_files None (stderr process) ;;
     wait process ;;
     found <- path_exists output_file ;;
     if found then print (Created output_file) else print (Missing output_file))
    is_CalledProcessError
    (fun e => print (Failed input_file e)).

(** [for i, input_file in enumerate(input_files)], counting from [i]. *)
Fixpoint for_enumerate (body : nat -> string -> M unit) (i : nat)
    (input_files : list string) : M unit :=
  match input_files with
  | [] => ret tt
  | input_file :: rest =>
      body i input_file ;;
      for_enumerate body (S i) rest
  end.

(** Lines 54-99. *)
Definition normalize_audio (input_files : list string) (output_dir ffmpeg_path : string)
    (target_lufs : F) : M unit :=
  let total_files := List.length input_files in
  for_enumerate (process_file output_dir ffmpeg_path target_lufs total_files) 0
    input_files ;;
  set_progress (of_int 1).

End Model.

Arguments trace {F A} o.
Arguments value {F A} o.
Arguments disk {F A} o.
Arguments event F : clear implicits.
Arguments outcome F A : clear implicits.
Arguments M F A : clear implicits.

(** ** Vocabulary of the properties *)

Section Vocabulary.

Context {F : Type} `{PyFloat F}.

(** The seconds that the leftmost match of a pattern in [line] stands for. *)
Definition parse (lit line : string) : option F :=
  match Re.search lit line with
  | Some g =>
      match seconds g with
      | Ok t => Some t
      | Raised _ => None
      end
  | None => None
  end.

(** The duration stored once [line] has been looked at. *)
Definition next_duration (duration : option F) (line : string) : option F :=
  match parse Re.duration_re line with
  | Some t => if truthy duration then duration else Some t
  | None => duration
  end.

(** The duration stored at the end of the stream. *)
Definition final_duration (duration : option F) (lines : list string) : option F :=
  fold_left next_duration lines duration.

(** The pair (elapsed time, stored duration) from which [line] reports
    progress, if it does. *)
Definition reading (duration : option F) (line : string) : list (F * F) :=
  match parse Re.time_re line, duration with
  | Some t, Some d => if nonzero d then [(t, d)] else []
  | _, _ => []
  end.

(** The same along a stream, in order. *)
Fixpoint readings (duration : option F) (lines : list string) : list (F * F) :=
  match lines with
  | [] => []
  | line :: rest =>
      let duration' := next_duration duration line in
      (reading duration' line ++ readings duration' rest)%list
  end.

(** Hours, minutes and hundredths of a second, in seconds. *)
Definition hms_seconds (h m c : Z) : F :=
  add (add (mul (of_int h) (of_int 3600)) (mul (of_int m) (of_int 60)))
      (div (of_int c) (of_int 100)).

(** Line 87, on floats. *)
Definition position (i total_files : nat) (r : F * F) : F :=
  add (mul (div (fst r) (snd r)) (div (of_int 1) (of_int (Z.of_nat total_files))))
      (div (of_int (Z.of_nat i)) (of_int (Z.of_nat total_files))).

(** The values given to [progress_var.set], the commands launched and the
    messages printed along a trace. *)
Fixpoint progress_values (tr : list (event F)) : list F :=
  match tr with
  | [] => []
  | Set_progress x :: rest => x :: progress_values rest
  | _ :: rest => progress_values rest
  end.

Fixpoint popens (tr : list (event F)) : list (list string) :=
  match tr with
  | [] => []
  | Popen c :: rest => c :: popens rest
  | _ :: rest => popens rest
  end.

Fixpoint prints (tr : list (event F)) : list message :=
  match tr with
  | [] => []
  | Print m :: rest => m :: prints rest
  | _ :: rest => prints rest
  end.

End Vocabulary.

(** Over the rationals: the slot of file [i] of [total_files], and the
    streams whose reported times grow and stay below the duration. *)
Definition in_slot (i total_files : nat) (x : Q) : Prop :=
  (inject_Z (Z.of_nat i) / inject_Z (Z.of_nat total_files) <= x
   /\ x < inject_Z (Z.of_nat (S i)) / inject_Z (Z.of_nat total_files))%Q.

Fixpoint nondecreasing (l : list Q) : Prop :=
  match l with
  | x :: (y :: _) as rest => (x <= y)%Q /\ nondecreasing rest
  | _ => True
  end.

Definition well_timed (lines : list string) : Prop :=
  Forall (fun r : Q * Q => (fst r < snd r)%Q) (readings None lines)
  /\ nondecreasing (map fst (readings None lines)).

(** ** The scenario of the specification, on binary64 and on [Q] *)

Module Scenario.

(** The text of the target loudness of the scenarios, [f'{-19.0}']. *)
Definition format_float {F : Type} (_ : F) : string := "-19.0".

Definition no_files : string -> bool := fun _ => false.

(** One minute of audio, half of it done when the second line is read. *)
Definition half_way : list string :=
  [ "  Duration: 00:01:00.00, start: 0.000000, bitrate: 1411 kb/s";
    "size=     256kB time=00:00:30.00 bitrate=  69.9kbits/s speed=60x" ].

(** A system in which every command prints [lines] and writes every file. *)
Definition always (lines : list string) : system :=
  fun _ _ => Some {| stderr := lines; returncode := 0; leaves := fun _ => true |}.

(** A system whose binary is missing. *)
Definition no_binary : system := fun _ _ => None.

(** A system in which every command exits with status 1, having written
    the file named by its last argument unless that is [/out/b.mp3]. *)
Definition skips_b : system :=
  fun command d =>
    Some {| stderr := half_way;
            returncode := 1;
            leaves := fun p =>
              d p || (negb (p =? "/out/b.mp3") && (p =? List.last command "")) |}.

(** A stream whose only duration is zero. *)
Definition zero_duration : list string :=
  [ "  Duration: 00:00:00.00, start: 0.000000, bitrate: N/A";
    "size=       0kB time=00:00:30.00 bitrate=   0.0kbits/s" ].

(** A stream whose first duration is zero and whose second is a minute. *)
Definition two_durations : list string :=
  [ "  Duration: 00:00:00.00, start: 0.000000, bitrate: N/A";
    "  Duration: 00:01:00.00, start: 0.000000, bitrate: 128 kb/s" ].

(** A stream that reports before it announces a duration. *)
Definition early_time : list string :=
  [ "size=      64kB time=00:00:10.00 bitrate=  52.4kbits/s" ].

(** A stream whose last report is 50 ms past the announced duration. *)
Definition overrun : list string :=
  [ "  Duration: 00:01:00.00, start: 0.000000, bitrate: 1411 kb/s";
    "size=       0kB time=00:00:00.00 bitrate=N/A speed=0x";
    "size=     939kB time=00:01:00.05 bitrate= 128.1kbits/s speed=61x" ].

End Scenario.

(** ** More of [str] *)

Module Text.

(** [c.isspace()] for a code point below 256. *)
Definition is_space (c : ascii) : bool :=
  let n := nat_of_ascii c in
  (((9 <=? n) && (n <=? 13)) || ((28 <=? n) && (n <=? 32))
   || (n =? 133) || (n =? 160))%nat.

(** [c.lower()] for a code point below 256: the letters [A]-[Z] and the
    capital letters of Latin-1, the sign 215 apart, move up by 32. *)
Definition lower_char (c : ascii) : ascii :=
  let n := nat_of_ascii c in
  if (((65 <=? n) && (n <=? 90))
      || ((192 <=? n) && (n <=? 222) && negb (n =? 215)))%nat
  then ascii_of_nat (n + 32)
  else c.

(** [s.lower()]. *)
Fixpoint lower (s : string) : string :=
  match s with
  | EmptyString => EmptyString
  | String a rest => String (lower_char a) (lower rest)
  end.

(** [s.endswith(suffix)]. *)
Definition endswith (suffix s : string) : bool :=
  (String.length suffix <=? String.length s)%nat
  && (Str.drop (String.length s - String.length suffix) s =? suffix).

(** [s.lstrip()], [s.rstrip()] and [s.strip()]. *)
Fixpoint lstrip (s : string) : string :=
  match s with
  | EmptyString => EmptyString
  | String a rest => if is_space a then lstrip rest else s
  end.

Fixpoint rstrip (s : string) : string :=
  match s with
  | EmptyString => EmptyString
  | String a rest =>
      match rstrip rest with
      | EmptyString => if is_space a then EmptyString else String a EmptyString
      | kept => String a kept
      end
  end.

Definition strip (s : string) : string := rstrip (lstrip s).

(** [s.split(c)] for a one-character [c]. *)
Fixpoint split (c : ascii) (s : string) : list string :=
  match s with
  | EmptyString => [EmptyString]
  | String a rest =>
      if Ascii.eqb a c then EmptyString :: split c rest
      else match split c rest with
           | first :: others => String a first :: others
           | [] => [String a EmptyString]
           end
  end.

(** [s.split()]: the maximal runs of characters that are not spaces. *)
Fixpoint words (s : string) : list string :=
  match s with
  | EmptyString => []
  | String a rest =>
      if is_space a then words rest
      else match rest with
           | EmptyString => [String a EmptyString]
           | String b _ =>
               if is_space b then String a EmptyString :: words rest
               else match words rest with
                    | first :: others => String a first :: others
                    | [] => [String a EmptyString]
                    end
           end
  end.

(** [sep.join(l)]. *)
Fixpoint join (sep : string) (l : list string) : string :=
  match l with
  | [] => EmptyString
  | [s] => s
  | s :: rest => s ++ sep ++ join sep rest
  end.

(** The text of one newline. *)
Definition nl : string := String "010"%char EmptyString.

(** Every character of [s] is a space; no character of [s] is one. *)
Fixpoint all_space (s : string) : bool :=
  match s with
  | EmptyString => true
  | String a rest => is_space a && all_space rest
  end.

Fixpoint no_space (s : string) : bool :=
  match s with
  | EmptyString => true
  | String a rest => negb (is_space a) && no_space rest
  end.

(** [s] begins, ends, with a character that is no space. *)
Definition starts_solid (s : string) : bool :=
  match s with
  | EmptyString => false
  | String a _ => negb (is_space a)
  end.

Fixpoint ends_solid (s : string) : bool :=
  match s with
  | EmptyString => false
  | String a EmptyString => negb (is_space a)
  | String _ rest => ends_solid rest
  end.

End Text.

(** ** The window

    The three widgets that the handlers read and write.  The text of
    [files_text] is kept without the final newline that Tk adds to what
    [get('1.0', END)] returns; [insert(END, s)] appends [s] to it. *)

Record widgets : Type := {
  files_text : string;
  output_dir_entry : string;
  target_lufs_spinbox : string
}.

(** [files_text.insert(tk.END, s)]. *)
Definition insert_end (s : string) (w : widgets) : widgets :=
  {| files_text := files_text w ++ s;
     output_dir_entry := output_dir_entry w;
     target_lufs_spinbox := target_lufs_spinbox w |}.

(** [files_text.delete('1.0', tk.END)]. *)
Definition delete_all (w : widgets) : widgets :=
  {| files_text := EmptyString;
     output_dir_entry := output_dir_entry w;
     target_lufs_spinbox := target_lufs_spinbox w |}.

(** [files_text.get('1.0', tk.END)]. *)
Definition get_all (w : widgets) : string := files_text w ++ Text.nl.

(** The lines that the handlers insert for [files]: [f"{file}\n"] each. *)
Fixpoint file_lines (files : list string) : string :=
  match files with
  | [] => EmptyString
  | file :: rest => (file ++ Text.nl) ++ file_lines rest
  end.

(** Line 162: [file.lower().endswith(('.m4a', '.aac', '.wav', '.mp3', '.ogg'))]. *)
Definition audio_extensions : list string :=
  [".m4a"; ".aac"; ".wav"; ".mp3"; ".ogg"].

Definition is_audio (file : string) : bool :=
  existsb (fun suffix => Text.endswith suffix (Text.lower file)) audio_extensions.

(** Lines 161-163. *)
Fixpoint drop_loop (files : list string) (w : widgets) : widgets :=
  match files with
  | [] => w
  | file :: rest =>
      drop_loop rest (if is_audio file then insert_end (file ++ Text.nl) w else w)
  end.

(** Lines 153-163: [drop(event)], [data] being [event.data]. *)
Definition drop (data : string) (w : widgets) : widgets :=
  drop_loop (Text.words data) w.

(** Lines 111-112. *)
Fixpoint insert_files (files : list string) (w : widgets) : widgets :=
  match files with
  | [] => w
  | file :: rest => insert_files rest (insert_end (file ++ Text.nl) w)
  end.

(** Line 127: [files_text.get('1.0', tk.END).strip().split('\n')]. *)
Definition read_files (w : widgets) : list string :=
  Text.split "010"%char (Text.strip (get_all w)).

(** Line 128: [not files or files == [""]]. *)
Definition no_files_selected (files : list string) : bool :=
  match files with
  | [] => true
  | [EmptyString] => true
  | _ => false
  end.

Section Window.

Context {F : Type} `{PyFloat F}.

(** What the handlers do to the world, in order. *)
Inductive gui_event : Type :=
| Worker (e : event F)               (* an effect of [normalize_audio] *)
| Progress_reset                     (* progress_var.set(0) *)
| Makedirs (path : string)           (* os.makedirs(path) *)
| Showwarning                        (* line 129 *)
| Showinfo (output_dir : string)     (* line 146 *)
| Startfile (path : string).         (* os.startfile(path) *)

Record gui_outcome : Type := {
  shown : list gui_event;
  raised : option exn;               (* the exception that leaves the handler *)
  window : widgets;
  files_on_disk : string -> bool
}.

Variable makedirs : string -> (string -> bool) -> option (string -> bool).
                                     (* the files after os.makedirs(path); None: OSError *)
Variable startfile : string -> (string -> bool) -> bool.
                                     (* os.startfile(path) opens the folder *)
Variable float_of_text : string -> result F.      (* float(text) *)
Variable format_float : F -> string.
Variable os : system.

(** [if not os.path.exists(path): os.makedirs(path)] (lines 106-107 and
    133-134): the events, and the files afterwards unless it raised. *)
Definition ensure_directory (path : string) (d : string -> bool)
  : list gui_event * option (string -> bool) :=
  if d path then ([], Some d) else ([Makedirs path], makedirs path d).

(** Lines 102-112: [select_files()], [cwd] being [os.getcwd()] and [chosen]
    what the dialog returns, nothing when it is cancelled. *)
Definition select_files (cwd : string) (chosen : list string) (w : widgets)
    (d : string -> bool) : gui_outcome :=
  let input_dir := Path.join cwd "input" in
  match ensure_directory input_dir d with
  | (evs, None) =>
      {| shown := evs; raised := Some OSError; window := w; files_on_disk := d |}
  | (evs, Some d') =>
      {| shown := evs;
         raised := None;
         window := match chosen with
                   | [] => w
                   | _ => insert_files chosen (delete_all w)
                   end;
         files_on_disk := d' |}
  end.

(** Lines 141-148: the worker thread runs [normalize_audio]; when that
    returns it has the main loop call [process_complete].  An exception
    ends the thread and reaches nobody. *)
Definition process_thread (files : list string) (output_dir ffmpeg_path : string)
    (target_lufs : F) (d : string -> bool) : list gui_event * (string -> bool) :=
  let o := normalize_audio format_float os files output_dir ffmpeg_path
             target_lufs d in
  match value o with
  | Ok _ =>
      (map Worker (trace o)
       ++ Showinfo output_dir :: Startfile output_dir
          :: (if startfile output_dir (disk o) then [Progress_reset] else []),
       disk o)%list
  | Raised _ => (map Worker (trace o), disk o)
  end.

(** Lines 125-150: [start_processing()], with the worker thread run to its
    end and nothing else happening in the window meanwhile. *)
Definition start_processing (w : widgets) (d : string -> bool) : gui_outcome :=
  let files := read_files w in
  if no_files_selected files then
    {| shown := [Showwarning]; raised := None; window := w; files_on_disk := d |}
  else
    let output_dir := output_dir_entry w in
    match ensure_directory output_dir d with
    | (evs, None) =>
        {| shown := evs; raised := Some OSError; window := w; files_on_disk := d |}
    | (evs, Some d') =>
        let ffmpeg_path := Path.join "ffmpeg" "ffmpeg.exe" in
        match float_of_text (target_lufs_spinbox w) with
        | Raised e =>
            {| shown := evs; raised := Some e; window := w; files_on_disk := d' |}
        | Ok target_lufs =>
            let (evs', d'') :=
              process_thread files output_dir ffmpeg_path target_lufs d' in
            {| shown := (evs ++ Progress_reset :: evs')%list;
               raised := None;
               window := w;
               files_on_disk := d'' |}
        end
    end.

End Window.

Arguments gui_event F : clear implicits.
Arguments gui_outcome F : clear implicits.

(** The effects of [normalize_audio] among the events of the window. *)
Fixpoint worker_events {F : Type} (evs : list (gui_event F)) : list (event F) :=
  match evs with
  | [] => []
  | Worker e :: rest => e :: worker_events rest
  | _ :: rest => worker_events rest
  end.

(** A line in which one of the two patterns matches. *)
Definition relevant (line : string) : bool :=
  match Re.search Re.duration_re line, Re.search Re.time_re line with
  | None, None => false
  | _, _ => true
  end.

(** A desktop for the examples: every directory can be made, every folder
    can be opened, and the spinbox reads -19. *)
Module Desk.

Definition makes : string -> (string -> bool) -> option (string -> bool) :=
  fun path d => Some (fun p => (p =? path) || d p).

Definition opens : string -> (string -> bool) -> bool := fun _ _ => true.

Definition reads {F : Type} `{PyFloat F} : string -> result F :=
  fun text => if text =? "-19" then Ok (of_int (-19)) else Raised ValueError.

Definition empty : widgets :=
  {| files_text := ""; output_dir_entry := "/out"; target_lufs_spinbox := "-19" |}.

(** The same with a target that is no number. *)
Definition mistyped : widgets :=
  {| files_text := ""; output_dir_entry := "/out"; target_lufs_spinbox := "loud" |}.

End Desk.


(** ** Facts about the patterns and about [float] *)

Section Parsing.

Context {F : Type} `{PyFloat F}.

Lemma digit_value_range (c : ascii) :
  Re.is_digit c = true -> (0 <= digit_value c <= 9)%Z.
Proof.
  unfold Re.is_digit, digit_value.
  rewrite andb_true_iff, !Nat.leb_le. lia.
Qed.

Lemma digit_not_dot (c : ascii) :
  Re.is_digit c = true -> Ascii.eqb c "."%char = false.
Proof.
  intros Hc. destruct (Ascii.eqb c "."%char) eqn:E; [|reflexivity].
  apply Ascii.eqb_eq in E. subst c. discriminate Hc.
Qed.

Lemma digits2_inv (s g r : string) :
  Re.digits2 s = Some (g, r) ->
  exists a b, s = String a (String b r) /\ g = String a (String b EmptyString)
              /\ Re.is_digit a = true /\ Re.is_digit b = true.
Proof.
  unfold Re.digits2. destruct s as [|a [|b rest]]; try discriminate.
  destruct (Re.is_digit a) eqn:Ea; destruct (Re.is_digit b) eqn:Eb;
    simpl; try discriminate.
  intros [= <- <-]. exists a, b. auto.
Qed.

(** [float] of two digits. *)
Lemma py_float_digits2 (a b : ascii) :
  Re.is_digit a = true -> Re.is_digit b = true ->
  py_float (String a (String b EmptyString))
  = Ok (of_int (10 * digit_value a + digit_value b)).
Proof.
  intros Ha Hb. unfold py_float. simpl.
  rewrite (digit_not_dot a Ha), (digit_not_dot b Hb). simpl.
  rewrite Ha, Hb. reflexivity.
Qed.

(** [float] of two digits, a dot and two digits. *)
Lemma py_float_seconds (a b c e : ascii) :
  Re.is_digit a = true -> Re.is_digit b = true ->
  Re.is_digit c = true -> Re.is_digit e = true ->
  py_float (String a (String b EmptyString) ++ "." ++ String c (String e EmptyString))
  = Ok (div (of_int (10 * (10 * (10 * digit_value a + digit_value b)
                           + digit_value c) + digit_value e))
            (of_int 100)).
Proof.
  intros Ha Hb Hc He. unfold py_float. simpl.
  rewrite (digit_not_dot a Ha), (digit_not_dot b Hb). simpl.
  rewrite Ha, Hb, Hc, He. reflexivity.
Qed.

(** The groups of a match are numerals, so [float] accepts them. *)
Lemma hms_numeric (s : string) (g : Re.groups) :
  Re.hms s = Some g ->
  exists h m c : Z,
    (0 <= h < 100 /\ 0 <= m < 100 /\ 0 <= c < 10000)%Z
    /\ py_float (fst (fst g)) = Ok (of_int h)
    /\ py_float (snd (fst g)) = Ok (of_int m)
    /\ py_float (snd g) = Ok (div (of_int c) (of_int 100)).
Proof.
  unfold Re.hms. intros Hg.
  repeat match type of Hg with
         | match ?x with _ => _ end = Some _ =>
             let E := fresh "E" in
             destruct x as [[? ?]|] eqn:E || destruct x eqn:E;
             [|discriminate Hg]
         end.
  injection Hg as <-.
  repeat match goal with
         | E : Re.digits2 _ = Some _ |- _ =>
             apply digits2_inv in E;
             destruct E as (? & ? & _ & -> & ? & ?)
         end.
  repeat match goal with
         | D : Re.is_digit _ = true |- _ =>
             pose proof (digit_value_range _ D); revert D
         end.
  intros. eexists _, _, _. split; [|split; [|split]].
  2: apply py_float_digits2; assumption.
  2: apply py_float_digits2; assumption.
  2: apply py_float_seconds; assumption.
  lia.
Qed.

Lemma search_numeric (lit line : string) (g : Re.groups) :
  Re.search lit line = Some g ->
  exists h m c : Z,
    (0 <= h < 100 /\ 0 <= m < 100 /\ 0 <= c < 10000)%Z
    /\ py_float (fst (fst g)) = Ok (of_int h)
    /\ py_float (snd (fst g)) = Ok (of_int m)
    /\ py_float (snd g) = Ok (div (of_int c) (of_int 100)).
Proof.
  induction line as [|a line IH]; simpl; unfold Re.match_here.
  - destruct (Re.literal lit EmptyString) as [s'|] eqn:E; [|discriminate].
    destruct (Re.hms s') eqn:E'; [|discriminate].
    intros [= <-]. eapply hms_numeric; eassumption.
  - destruct (Re.literal lit (String a line)) as [s'|] eqn:E.
    + destruct (Re.hms s') eqn:E'.
      * intros [= <-]. eapply hms_numeric; eassumption.
      * exact IH.
    + exact IH.
Qed.

(** The seconds of a match are computed, never refused. *)
Lemma seconds_of_match (lit line : string) (g : Re.groups) :
  Re.search lit line = Some g ->
  exists h m c : Z,
    (0 <= h < 100 /\ 0 <= m < 100 /\ 0 <= c < 10000)%Z
    /\ seconds g = Ok (hms_seconds h m c).
Proof.
  intros Hg. destruct (search_numeric _ _ _ Hg) as (h & m & c & Hr & H1 & H2 & H3).
  exists h, m, c. split; [exact Hr|].
  destruct g as [[g1 g2] g3]. simpl in *. unfold seconds.
  rewrite H1, H2, H3. reflexivity.
Qed.

Lemma parse_of_match (lit line : string) (g : Re.groups) :
  Re.search lit line = Some g ->
  exists t, seconds g = Ok t /\ parse lit line = Some t.
Proof.
  intros Hg. destruct (seconds_of_match _ _ _ Hg) as (h & m & c & _ & Hs).
  exists (hms_seconds h m c). unfold parse. rewrite Hg, Hs. auto.
Qed.

Lemma parse_no_match (lit line : string) :
  Re.search lit line = None -> parse lit line = None.
Proof. intros Hn. unfold parse. rewrite Hn. reflexivity. Qed.

End Parsing.

(** ** The loop over the lines *)

Section Scanning.

Context {F : Type} `{PyFloat F}.

Lemma bind_ok {A B} (m : M F A) (k : A -> M F B) d tr a d' :
  m d = {| trace := tr; value := Ok a; disk := d' |} ->
  bind m k d = {| trace := (tr ++ trace (k a d'))%list;
                  value := value (k a d');
                  disk := disk (k a d') |}.
Proof. intros E. unfold bind. rewrite E. reflexivity. Qed.

Lemma bind_raised {A B} (m : M F A) (k : A -> M F B) d tr e d' :
  m d = {| trace := tr; value := Raised e; disk := d' |} ->
  bind m k d = {| trace := tr; value := Raised e; disk := d' |}.
Proof. intros E. unfold bind. rewrite E. reflexivity. Qed.

(** Lines 74-80 report nothing and raise nothing. *)
Lemma read_duration_spec (duration : option F) (line : string) d :
  read_duration duration line d
  = {| trace := []; value := Ok (next_duration duration line); disk := d |}.
Proof.
  unfold read_duration, next_duration.
  destruct (Re.search Re.duration_re line) as [g|] eqn:E.
  - destruct (parse_of_match _ _ _ E) as (t & Hs & ->).
    destruct (truthy duration); simpl; [reflexivity|].
    unfold bind, lift, ret. rewrite Hs. reflexivity.
  - rewrite (parse_no_match _ _ E). reflexivity.
Qed.

(** Lines 82-88 report the position of the reading of the line, if any,
    and raise nothing when there is a file in the batch. *)
Lemma report_time_spec (i n : nat) (duration : option F) (line : string) d :
  report_time i (S n) duration line d
  = {| trace := map Set_progress (map (position i (S n)) (reading duration line));
       value := Ok tt;
       disk := d |}.
Proof.
  unfold report_time, reading.
  destruct (Re.search Re.time_re line) as [g|] eqn:E.
  - destruct (parse_of_match _ _ _ E) as (t & Hs & ->).
    destruct duration as [dur|]; [|reflexivity].
    destruct (nonzero dur) eqn:Hd; [|reflexivity].
    unfold bind, lift, set_progress, emit, truediv, int_truediv.
    rewrite Hs. cbn [value trace disk]. rewrite Hd.
    replace (Z.of_nat (S n) =? 0)%Z with false
      by (symmetry; apply Z.eqb_neq; lia).
    reflexivity.
  - rewrite (parse_no_match _ _ E). destruct duration; reflexivity.
Qed.

(** Lines 73-88: the stream reports the positions of its readings, in
    order, returns, and leaves the files alone. *)
Lemma scan_spec (i n : nat) (lines : list string) :
  forall (duration : option F) d,
    scan i (S n) duration lines d
    = {| trace := map Set_progress (map (position i (S n)) (readings duration lines));
         value := Ok (final_duration duration lines);
         disk := d |}.
Proof.
  induction lines as [|line rest IH]; intros duration d; [reflexivity|].
  cbn [scan].
  rewrite (bind_ok _ _ _ _ _ _ (read_duration_spec duration line d)).
  rewrite (bind_ok _ _ _ _ _ _ (report_time_spec i n _ line d)).
  rewrite IH. cbn [trace value disk readings final_duration fold_left app].
  rewrite !map_app. reflexivity.
Qed.

(** Nothing is reported while no duration is stored. *)
Lemma report_time_no_duration (i total_files : nat) (line : string) d :
  report_time (F := F) i total_files None line d
  = {| trace := []; value := Ok tt; disk := d |}.
Proof.
  unfold report_time. destruct (Re.search Re.time_re line); reflexivity.
Qed.

Lemma progress_values_app (tr1 tr2 : list (event F)) :
  progress_values (tr1 ++ tr2) = (progress_values tr1 ++ progress_values tr2)%list.
Proof.
  induction tr1 as [|[c|x|m] tr1 IH]; simpl; rewrite ?IH; reflexivity.
Qed.

Lemma popens_app (tr1 tr2 : list (event F)) :
  popens (tr1 ++ tr2) = (popens tr1 ++ popens tr2)%list.
Proof.
  induction tr1 as [|[c|x|m] tr1 IH]; simpl; rewrite ?IH; reflexivity.
Qed.

Lemma prints_app (tr1 tr2 : list (event F)) :
  prints (tr1 ++ tr2) = (prints tr1 ++ prints tr2)%list.
Proof.
  induction tr1 as [|[c|x|m] tr1 IH]; simpl; rewrite ?IH; reflexivity.
Qed.

Lemma progress_values_set (xs : list F) :
  progress_values (map Set_progress xs) = xs.
Proof. induction xs as [|x xs IH]; simpl; rewrite ?IH; reflexivity. Qed.

Lemma popens_set (xs : list F) : popens (map Set_progress xs) = [].
Proof. induction xs as [|x xs IH]; simpl; auto. Qed.

Lemma prints_set (xs : list F) : prints (map Set_progress xs) = [].
Proof. induction xs as [|x xs IH]; simpl; auto. Qed.

End Scanning.

(** ** One file, then the batch *)

Section Batch.

Context {F : Type} `{PyFloat F}.
Variable format_float : F -> string.
Variable os : system.
Variables output_dir ffmpeg_path : string.
Variable target_lufs : F.

Let command (input_file : string) : list string :=
  ffmpeg_command format_float ffmpeg_path input_file target_lufs
    (output_path output_dir input_file).

Let body (total_files : nat) : nat -> string -> M F unit :=
  process_file format_float os output_dir ffmpeg_path target_lufs total_files.

(** What [print] says of a file whose process has exited. *)
Let verdict (p : process) (input_file : string) : message :=
  if leaves p (output_path output_dir input_file)
  then Created (output_path output_dir input_file)
  else Missing (output_path output_dir input_file).

(** A file whose process starts. *)
Lemma process_file_started (n i : nat) (input_file : string) d (p : process) :
  os (command input_file) d = Some p ->
  body (S n) i input_file d
  = {| trace := (Popen (command input_file)
                 :: map Set_progress
                      (map (position i (S n)) (readings None (stderr p)))
                 ++ [Print (verdict p input_file)])%list;
       value := Ok tt;
       disk := leaves p |}.
Proof.
  intros Hp. unfold body, process_file, try_except, verdict.
  fold (command input_file).
  assert (Hpop : popen (F := F) os (command input_file) d
                 = {| trace := [Popen (command input_file)];
                      value := Ok p; disk := d |})
    by (unfold popen; rewrite Hp; reflexivity).
  rewrite (bind_ok _ _ _ _ _ _ Hpop).
  rewrite (bind_ok _ _ _ _ _ _ (scan_spec i n (stderr p) None d)).
  unfold bind, wait, path_exists, print, emit. cbn [trace value disk].
  destruct (leaves p (output_path output_dir input_file)); reflexivity.
Qed.

(** A file whose process does not start: [OSError] leaves the loop body. *)
Lemma process_file_not_started (n i : nat) (input_file : string) d :
  os (command input_file) d = None ->
  body n i input_file d
  = {| trace := [Popen (command input_file)]; value := Raised OSError; disk := d |}.
Proof.
  intros Hp. unfold body, process_file, try_except.
  fold (command input_file).
  assert (Hpop : popen (F := F) os (command input_file) d
                 = {| trace := [Popen (command input_file)];
                      value := Raised OSError; disk := d |})
    by (unfold popen; rewrite Hp; reflexivity).
  rewrite (bind_raised _ _ _ _ _ _ Hpop). reflexivity.
Qed.

(** The loop from file [i] on, by cases on the first process. *)
Lemma for_enumerate_started (n i : nat) (input_file : string) rest d p :
  os (command input_file) d = Some p ->
  for_enumerate (body (S n)) i (input_file :: rest) d
  = let o := for_enumerate (body (S n)) (S i) rest (leaves p) in
    {| trace := (trace (body (S n) i input_file d) ++ trace o)%list;
       value := value o;
       disk := disk o |}.
Proof.
  intros Hp. cbn [for_enumerate].
  rewrite (bind_ok _ _ _ _ _ _ (process_file_started n i input_file d p Hp)).
  rewrite (process_file_started n i input_file d p Hp). reflexivity.
Qed.

Lemma for_enumerate_not_started (n i : nat) (input_file : string) rest d :
  os (command input_file) d = None ->
  for_enumerate (body n) i (input_file :: rest) d
  = {| trace := [Popen (command input_file)]; value := Raised OSError; disk := d |}.
Proof.
  intros Hp. cbn [for_enumerate].
  apply bind_raised, process_file_not_started, Hp.
Qed.

(** The loop returns, or stops on the [OSError] of a process that did not
    start; no other exception leaves it. *)
Lemma for_enumerate_value (n : nat) (input_files : list string) :
  forall i d,
    value (for_enumerate (body (S n)) i input_files d) = Ok tt
    \/ value (for_enumerate (body (S n)) i input_files d) = Raised OSError.
Proof.
  induction input_files as [|f rest IH]; intros i d; [left; reflexivity|].
  destruct (os (command f) d) as [p|] eqn:Hp.
  - rewrite (for_enumerate_started _ _ _ _ _ _ Hp). apply IH.
  - rewrite (for_enumerate_not_started _ _ _ _ _ Hp). right. reflexivity.
Qed.

(** When every process starts, the loop returns having launched the
    command of every file, in order. *)
Lemma for_enumerate_all_started (n : nat) (input_files : list string) :
  (forall f d, In f input_files -> os (command f) d <> None) ->
  forall i d,
    value (for_enumerate (body (S n)) i input_files d) = Ok tt
    /\ popens (trace (for_enumerate (body (S n)) i input_files d))
       = map command input_files.
Proof.
  induction input_files as [|f rest IH]; intros Hs i d; [split; reflexivity|].
  destruct (os (command f) d) as [p|] eqn:Hp.
  - rewrite (for_enumerate_started _ _ _ _ _ _ Hp). cbn [value trace].
    destruct (IH (fun g d' Hg => Hs g d' (or_intror Hg)) (S i) (leaves p))
      as [Hv Hc].
    split; [exact Hv|].
    rewrite popens_app, Hc, (process_file_started _ _ _ _ _ Hp).
    cbn [trace popens]. rewrite popens_app, popens_set. reflexivity.
  - exfalso. exact (Hs f d (or_introl eq_refl) Hp).
Qed.

(** In any case the commands launched are those of a prefix of the files. *)
Lemma for_enumerate_popens (n : nat) (input_files : list string) :
  forall i d,
    exists k,
      popens (trace (for_enumerate (body (S n)) i input_files d))
      = map command (firstn k input_files).
Proof.
  induction input_files as [|f rest IH]; intros i d; [exists 0; reflexivity|].
  destruct (os (command f) d) as [p|] eqn:Hp.
  - rewrite (for_enumerate_started _ _ _ _ _ _ Hp). cbn [value trace].
    destruct (IH (S i) (leaves p)) as [k Hk]. exists (S k).
    rewrite popens_app, Hk, (process_file_started _ _ _ _ _ Hp).
    cbn [trace popens]. rewrite popens_app, popens_set. reflexivity.
  - rewrite (for_enumerate_not_started _ _ _ _ _ Hp). exists 1. reflexivity.
Qed.

(** The handler of line 96 never runs. *)
Lemma for_enumerate_prints (n : nat) (input_files : list string) :
  forall i d,
    Forall (fun m => exists f, In f input_files
                               /\ (m = Created (output_path output_dir f)
                                   \/ m = Missing (output_path output_dir f)))
           (prints (trace (for_enumerate (body (S n)) i input_files d))).
Proof.
  induction input_files as [|f rest IH]; intros i d; [constructor|].
  destruct (os (command f) d) as [p|] eqn:Hp.
  - rewrite (for_enumerate_started _ _ _ _ _ _ Hp). cbn [value trace].
    rewrite prints_app, (process_file_started _ _ _ _ _ Hp).
    cbn [trace prints]. rewrite prints_app, prints_set. cbn [prints app].
    constructor.
    + exists f. split; [left; reflexivity|].
      unfold verdict. destruct (leaves p _); auto.
    + eapply Forall_impl; [|apply IH].
      intros m (g & Hg & Hm). exists g. split; [right; exact Hg|exact Hm].
  - rewrite (for_enumerate_not_started _ _ _ _ _ Hp). constructor.
Qed.

(** The batch, once its loop is known. *)
Lemma normalize_audio_unfold (input_files : list string) d :
  let loop := for_enumerate (body (List.length input_files)) 0 input_files d in
  normalize_audio format_float os input_files output_dir ffmpeg_path target_lufs d
  = match value loop with
    | Ok _ => {| trace := (trace loop ++ [Set_progress (of_int 1)])%list;
                 value := Ok tt;
                 disk := disk loop |}
    | Raised e => {| trace := trace loop; value := Raised e; disk := disk loop |}
    end.
Proof.
  cbv zeta. unfold normalize_audio, bind, set_progress, emit. fold body.
  destruct (value (for_enumerate _ 0 input_files d)); reflexivity.
Qed.

End Batch.

(** ** The stored duration *)

Section Duration.

Context {F : Type} `{PyFloat F}.

Lemma next_duration_no_match (duration : option F) (line : string) :
  Re.search Re.duration_re line = None -> next_duration duration line = duration.
Proof.
  intros Hn. unfold next_duration. rewrite (parse_no_match _ _ Hn). reflexivity.
Qed.

Lemma next_duration_kept (duration : option F) (line : string) :
  truthy duration = true -> next_duration duration line = duration.
Proof.
  intros Ht. unfold next_duration. rewrite Ht.
  destruct (parse Re.duration_re line); reflexivity.
Qed.

Lemma next_duration_set (duration : option F) (line : string) (t : F) :
  truthy duration = false -> parse Re.duration_re line = Some t ->
  next_duration duration line = Some t.
Proof. intros Ht Hp. unfold next_duration. rewrite Hp, Ht. reflexivity. Qed.

Lemma final_duration_no_match (lines : list string) :
  Forall (fun l => Re.search Re.duration_re l = None) lines ->
  forall duration : option F, final_duration duration lines = duration.
Proof.
  induction 1 as [|l lines Hl _ IH]; intros duration; [reflexivity|].
  unfold final_duration in *. simpl.
  rewrite (next_duration_no_match _ _ Hl). apply IH.
Qed.

Lemma final_duration_kept (lines : list string) (duration : option F) :
  truthy duration = true -> final_duration duration lines = duration.
Proof.
  intros Ht. induction lines as [|l lines IH]; [reflexivity|].
  unfold final_duration in *. simpl.
  rewrite (next_duration_kept _ _ Ht). exact IH.
Qed.

Lemma final_duration_app (pre post : list string) (duration : option F) :
  final_duration duration (pre ++ post)
  = final_duration (final_duration duration pre) post.
Proof. unfold final_duration. apply fold_left_app. Qed.

Lemma reading_falsy (duration : option F) (line : string) :
  truthy duration = false -> reading duration line = [].
Proof.
  unfold reading, truthy. intros Ht.
  destruct (parse Re.time_re line); [|reflexivity].
  destruct duration as [x|]; [|reflexivity]. rewrite Ht. reflexivity.
Qed.

(** No reading is taken while the stored duration is unset or zero. *)
Lemma readings_falsy (lines : list string) :
  forall duration : option F,
    truthy duration = false ->
    (forall l t, In l lines -> parse Re.duration_re l = Some t -> nonzero t = false) ->
    readings duration lines = [] /\ truthy (final_duration duration lines) = false.
Proof.
  induction lines as [|l lines IH]; intros duration Ht Hz; [split; [reflexivity|exact Ht]|].
  assert (Hn : truthy (next_duration duration l) = false).
  { unfold next_duration. destruct (parse Re.duration_re l) as [t|] eqn:E.
    - rewrite Ht. simpl. apply (Hz l t); [left; reflexivity|exact E].
    - exact Ht. }
  cbn [readings]. rewrite (reading_falsy _ _ Hn).
  apply (IH _ Hn). intros l' t Hl. apply Hz. right. exact Hl.
Qed.

(** Every reading divides by a nonzero duration. *)
Lemma readings_nonzero (lines : list string) :
  forall duration : option F,
    Forall (fun r => nonzero (snd r) = true) (readings duration lines).
Proof.
  induction lines as [|l lines IH]; intros duration; [constructor|].
  cbn [readings]. apply Forall_app. split; [|apply IH].
  unfold reading. destruct (parse Re.time_re l); [|constructor].
  destruct (next_duration duration l) as [x|]; [|constructor].
  destruct (nonzero x) eqn:E; constructor; [exact E|constructor].
Qed.

(** Once a nonzero duration is stored, every reading is against it. *)
Lemma readings_stored (lines : list string) (x : F) :
  nonzero x = true ->
  Forall (fun r => snd r = x) (readings (Some x) lines).
Proof.
  intros Hx. induction lines as [|l lines IH]; [constructor|].
  cbn [readings]. rewrite (next_duration_kept (Some x) l Hx).
  apply Forall_app. split; [|exact IH].
  unfold reading. destruct (parse Re.time_re l); [|constructor].
  rewrite Hx. repeat constructor.
Qed.

Lemma readings_same_duration (lines : list string) :
  forall duration : option F,
    exists x, nonzero x = true /\ Forall (fun r => snd r = x) (readings duration lines)
    \/ readings duration lines = [].
Proof.
  induction lines as [|l lines IH]; intros duration.
  - exists (of_int 0). right. reflexivity.
  - cbn [readings].
    destruct (truthy (next_duration duration l)) eqn:Ht.
    + destruct (next_duration duration l) as [x|] eqn:En; [|discriminate Ht].
      exists x. left. split; [exact Ht|].
      apply Forall_app. split; [|apply readings_stored, Ht].
      unfold reading. destruct (parse Re.time_re l); [|constructor].
      simpl in Ht. rewrite Ht. repeat constructor.
    + rewrite (reading_falsy _ _ Ht). apply IH.
Qed.

End Duration.

(** ** Paths *)

Section Paths.

Lemma mem_app (c : ascii) (s t : string) :
  Str.mem c (s ++ t) = Str.mem c s || Str.mem c t.
Proof.
  induction s as [|a s IH]; simpl; [reflexivity|].
  rewrite IH, orb_assoc. reflexivity.
Qed.

Lemma rfind_absent (c : ascii) (s : string) :
  Str.mem c s = false -> Str.rfind c s = None.
Proof.
  induction s as [|a s IH]; simpl; [reflexivity|].
  intros Hm. apply orb_false_iff in Hm. destruct Hm as [Ha Hs].
  rewrite (IH Hs), Ha. reflexivity.
Qed.

Lemma rfind_last (c : ascii) (s t : string) :
  Str.mem c t = false ->
  Str.rfind c (s ++ String c t) = Some (String.length s).
Proof.
  intros Ht. induction s as [|a s IH]; simpl.
  - rewrite (rfind_absent _ _ Ht), Ascii.eqb_refl. reflexivity.
  - rewrite IH. reflexivity.
Qed.

Lemma take_app (s t : string) : Str.take (String.length s) (s ++ t) = s.
Proof.
  induction s as [|a s IH]; simpl; [destruct t; reflexivity|].
  rewrite IH. reflexivity.
Qed.

Lemma drop_app (s t : string) : Str.drop (String.length s) (s ++ t) = t.
Proof. induction s as [|a s IH]; simpl; [destruct t; reflexivity|exact IH]. Qed.

(** The base name of [dir/name]. *)
Lemma basename_of (dir name : string) :
  Str.mem Path.sep name = false ->
  Path.basename (dir ++ "/" ++ name) = name.
Proof.
  intros Hn. unfold Path.basename. change ("/" ++ name) with (String Path.sep name).
  rewrite (rfind_last _ dir _ Hn).
  change (String Path.sep name) with ("/" ++ name).
  replace (dir ++ "/" ++ name) with ((dir ++ "/") ++ name).
  - replace (S (String.length dir)) with (String.length (dir ++ "/")).
    + apply drop_app.
    + clear. induction dir as [|a dir IH]; simpl; [reflexivity|].
      rewrite IH. reflexivity.
  - clear. induction dir as [|a dir IH]; simpl; [reflexivity|].
    rewrite IH. reflexivity.
Qed.

(** The stem and the extension of [stem.ext]. *)
Lemma splitext_of (stem ext : string) :
  Str.mem Path.sep stem = false -> Str.has_other Path.extsep stem = true ->
  Str.mem Path.sep ext = false -> Str.mem Path.extsep ext = false ->
  Path.splitext (stem ++ "." ++ ext) = (stem, "." ++ ext).
Proof.
  intros Hs Ho He Hd. unfold Path.splitext.
  change ("." ++ ext) with (String Path.extsep ext).
  rewrite (rfind_last _ stem _ Hd).
  rewrite rfind_absent
    by (rewrite mem_app; simpl; rewrite Hs, He; reflexivity).
  rewrite Nat.sub_0_r. cbn [Str.drop Nat.leb andb].
  rewrite take_app, Ho, drop_app. reflexivity.
Qed.

Lemma join_plain (a b : string) :
  Str.startswith Path.sep b = false -> a <> EmptyString ->
  Str.endswith Path.sep a = false ->
  Path.join a b = a ++ "/" ++ b.
Proof.
  intros Hb Ha He. unfold Path.join. rewrite Hb, He.
  destruct a; [contradiction|reflexivity].
Qed.

Lemma startswith_app (c : ascii) (s t : string) :
  Str.mem c s = false -> Str.startswith c t = false ->
  Str.startswith c (s ++ t) = false.
Proof.
  destruct s as [|a s]; simpl; [auto|].
  intros Hm _. apply orb_false_iff in Hm. tauto.
Qed.

End Paths.

(** ** The properties *)

(** C8. The output path is the output directory joined with the stem of the
    base name of the input and [.mp3]: a file [stem.ext] of any directory
    goes to [stem.mp3] of the output directory, whatever [ext] is, and
    [/x/song.wav] with output directory [/y] goes to [/y/song.mp3]. *)
Theorem output_path_replaces_extension (output_dir dir stem ext : string)
    (Hdir : output_dir <> EmptyString)
    (Hend : Str.endswith Path.sep output_dir = false)
    (Hstem : Str.mem Path.sep stem = false)
    (Hname : Str.has_other Path.extsep stem = true)
    (Hsep : Str.mem Path.sep ext = false)
    (Hext : Str.mem Path.extsep ext = false) :
  output_path output_dir (dir ++ "/" ++ stem ++ "." ++ ext)
  = output_dir ++ "/" ++ stem ++ ".mp3"
  /\ (forall input_file,
        output_path output_dir input_file
        = Path.join output_dir
            (fst (Path.splitext (Path.basename input_file)) ++ ".mp3"))
  /\ output_path "/y" "/x/song.wav" = "/y/song.mp3".
Proof.
  split; [|split; reflexivity].
  unfold output_path.
  rewrite basename_of
    by (rewrite mem_app; simpl; rewrite Hstem, Hsep; reflexivity).
  rewrite (splitext_of _ _ Hstem Hname Hsep Hext). cbn [fst].
  apply join_plain; [|exact Hdir|exact Hend].
  apply startswith_app; [exact Hstem|reflexivity].
Qed.

Lemma output_path_replaces_extension_witness :
  output_path "/music/out" ("/home/me" ++ "/" ++ "a.b" ++ "." ++ "ogg")
  = "/music/out" ++ "/" ++ "a.b" ++ ".mp3"
  /\ (forall input_file,
        output_path "/music/out" input_file
        = Path.join "/music/out"
            (fst (Path.splitext (Path.basename input_file)) ++ ".mp3"))
  /\ output_path "/y" "/x/song.wav" = "/y/song.mp3".
Proof.
  apply (output_path_replaces_extension "/music/out" "/home/me" "a.b" "ogg");
    [discriminate|reflexivity..].
Defined.

Section Streams.

Context {F : Type} `{PyFloat F}.

(** Lines without a duration, read while none is stored, change nothing. *)
Lemma scan_skips (i total_files : nat) (pre rest : list string) d :
  Forall (fun l => Re.search Re.duration_re l = None) pre ->
  scan (F := F) i total_files None (pre ++ rest) d = scan i total_files None rest d.
Proof.
  induction 1 as [|l pre Hl _ IH]; [reflexivity|].
  cbn [app scan].
  pose proof (read_duration_spec (F := F) None l d) as Hr.
  rewrite (next_duration_no_match _ _ Hl) in Hr.
  rewrite (bind_ok _ _ _ _ _ _ Hr).
  rewrite (bind_ok _ _ _ _ _ _ (report_time_no_duration i total_files l d)).
  rewrite IH. destruct (scan i total_files None rest d). reflexivity.
Qed.

Lemma parse_inv (lit line : string) (t : F) :
  parse lit line = Some t ->
  exists g, Re.search lit line = Some g /\ seconds g = Ok t.
Proof.
  unfold parse. destruct (Re.search lit line) as [g|]; [|discriminate].
  destruct (seconds g) as [x|] eqn:E; [|discriminate].
  intros [= <-]. exists g. auto.
Qed.

End Streams.

(** C7. A line that matches the [time=] pattern before any line has
    matched the [Duration:] pattern produces no progress update: the lines
    read until then leave no trace, and the stream goes on as if it had
    started after them. *)
Theorem time_before_duration_is_ignored {F : Type} `{PyFloat F}
    (i total_files : nat) (pre rest : list string) (d : string -> bool)
    (Hpre : Forall (fun l => Re.search Re.duration_re l = None) pre) :
  trace (scan (F := F) i total_files None pre d) = []
  /\ value (scan (F := F) i total_files None pre d) = Ok None
  /\ trace (scan (F := F) i total_files None (pre ++ rest) d)
     = trace (scan i total_files None rest d).
Proof.
  split; [|split].
  - rewrite <- (app_nil_r pre), (scan_skips _ _ _ _ _ Hpre). reflexivity.
  - rewrite <- (app_nil_r pre), (scan_skips _ _ _ _ _ Hpre). reflexivity.
  - rewrite (scan_skips _ _ _ _ _ Hpre). reflexivity.
Qed.

Lemma time_before_duration_is_ignored_witness :
  trace (scan (F := float) 0 1 None Scenario.early_time Scenario.no_files) = []
  /\ value (scan (F := float) 0 1 None Scenario.early_time Scenario.no_files) = Ok None
  /\ trace (scan (F := float) 0 1 None
              (Scenario.early_time ++ Scenario.half_way) Scenario.no_files)
     = trace (scan 0 1 None Scenario.half_way Scenario.no_files).
Proof.
  apply (time_before_duration_is_ignored 0 1 Scenario.early_time Scenario.half_way).
  repeat constructor.
Defined.

(** C6, as stated, fails: a first duration of zero seconds is stored, and
    the next line that matches the pattern replaces it. *)
Lemma later_duration_replaces_zero :
  value (scan (F := float) 0 1 None (firstn 1 Scenario.two_durations) Scenario.no_files)
  = Ok (Some 0%float)
  /\ value (scan (F := float) 0 1 None Scenario.two_durations Scenario.no_files)
     = Ok (Some 60%float)
  /\ PrimFloat.eqb 0 60 = false.
Proof. vm_compute. repeat split. Qed.

(** C6, amended. The first line that matches the [Duration:] pattern sets
    the stored duration to hours * 3600 + minutes * 60 + seconds.  When
    that is not zero, every later line that matches the pattern is ignored;
    when it is zero, the next line that matches the pattern replaces it. *)
Theorem first_duration_is_stored {F : Type} `{PyFloat F}
    (i n : nat) (pre rest : list string) (line g1 g2 g3 : string)
    (d : string -> bool)
    (Hpre : Forall (fun l => Re.search Re.duration_re l = None) pre)
    (Hline : Re.search Re.duration_re line = Some (g1, g2, g3)) :
  exists h m s : F,
    py_float g1 = Ok h /\ py_float g2 = Ok m /\ py_float g3 = Ok s
    /\ let t := add (add (mul h (of_int 3600)) (mul m (of_int 60))) s in
       value (scan i (S n) None (pre ++ [line]) d) = Ok (Some t)
       /\ (nonzero t = true ->
           value (scan i (S n) None (pre ++ line :: rest) d) = Ok (Some t))
       /\ (nonzero t = false ->
           forall mid line' g',
             Forall (fun l => Re.search Re.duration_re l = None) mid ->
             Re.search Re.duration_re line' = Some g' ->
             exists t',
               seconds g' = Ok t'
               /\ value (scan i (S n) None (pre ++ line :: mid ++ [line']) d)
                  = Ok (Some t')).
Proof.
  destruct (search_numeric (F := F) _ _ _ Hline) as (h & m & c & _ & H1 & H2 & H3).
  cbn [fst snd] in H1, H2, H3.
  exists (of_int h), (of_int m), (div (of_int c) (of_int 100)).
  split; [exact H1|]. split; [exact H2|]. split; [exact H3|].
  cbv zeta.
  set (t := add (add (mul (of_int h) (of_int 3600)) (mul (of_int m) (of_int 60)))
                (div (of_int c) (of_int 100))).
  assert (Hs : seconds (F := F) (g1, g2, g3) = Ok t)
    by (unfold seconds; rewrite H1, H2, H3; reflexivity).
  assert (Hp : parse (F := F) Re.duration_re line = Some t)
    by (unfold parse; rewrite Hline, Hs; reflexivity).
  assert (Hstored : forall tail,
             final_duration (F := F) None (pre ++ line :: tail)
             = final_duration (Some t) tail).
  { intros tail. rewrite final_duration_app, (final_duration_no_match _ Hpre).
    unfold final_duration. cbn [fold_left].
    rewrite (next_duration_set None line t eq_refl Hp). reflexivity. }
  split; [|split].
  - rewrite scan_spec. cbn [value]. rewrite Hstored. reflexivity.
  - intros Ht. rewrite scan_spec. cbn [value]. rewrite Hstored.
    rewrite (final_duration_kept rest (Some t) Ht). reflexivity.
  - intros Ht mid line' g' Hmid Hline'.
    destruct (parse_of_match (F := F) _ _ _ Hline') as (t' & Hs' & Hp').
    exists t'. split; [exact Hs'|].
    rewrite scan_spec. cbn [value]. rewrite Hstored, final_duration_app.
    rewrite (final_duration_no_match _ Hmid).
    unfold final_duration. cbn [fold_left].
    rewrite (next_duration_set (Some t) line' t' Ht Hp'). reflexivity.
Qed.

Lemma first_duration_is_stored_witness :
  exists h m s : float,
    py_float "00" = Ok h /\ py_float "01" = Ok m /\ py_float "00.00" = Ok s
    /\ let t := add (add (mul h (of_int 3600)) (mul m (of_int 60))) s in
       value (scan 0 1 None
                (Scenario.early_time ++ [nth 0 Scenario.half_way ""])
                Scenario.no_files)
       = Ok (Some t)
       /\ (nonzero t = true ->
           value (scan 0 1 None
                    (Scenario.early_time
                     ++ nth 0 Scenario.half_way "" :: Scenario.two_durations)
                    Scenario.no_files)
           = Ok (Some t))
       /\ (nonzero t = false ->
           forall mid line' g',
             Forall (fun l => Re.search Re.duration_re l = None) mid ->
             Re.search Re.duration_re line' = Some g' ->
             exists t' : float,
               seconds g' = Ok t'
               /\ value (scan 0 1 None
                           (Scenario.early_time
                            ++ nth 0 Scenario.half_way "" :: mid ++ [line'])
                           Scenario.no_files)
                  = Ok (Some t')).
Proof.
  apply (first_duration_is_stored (F := float) 0 0 Scenario.early_time
           Scenario.two_durations (nth 0 Scenario.half_way "") "00" "01" "00.00").
  - repeat constructor.
  - reflexivity.
Defined.

Section Runs.

Context {F : Type} `{PyFloat F}.
Variable format_float : F -> string.
Variable os : system.
Variables output_dir ffmpeg_path : string.
Variable target_lufs : F.

Let command (input_file : string) : list string :=
  ffmpeg_command format_float ffmpeg_path input_file target_lufs
    (output_path output_dir input_file).

Let run (input_files : list string) d : outcome F unit :=
  normalize_audio format_float os input_files output_dir ffmpeg_path target_lufs d.

(** The batch returns or stops on the [OSError] of a process that did not
    start. *)
Lemma normalize_audio_value (input_files : list string) d :
  value (run input_files d) = Ok tt \/ value (run input_files d) = Raised OSError.
Proof.
  unfold run. rewrite normalize_audio_unfold. cbv zeta.
  destruct input_files as [|f rest]; [left; reflexivity|].
  destruct (for_enumerate_value format_float os output_dir ffmpeg_path target_lufs
              (List.length rest) (f :: rest) 0 d) as [E|E];
    cbn [List.length]; rewrite E; auto.
Qed.

(** When every process starts, the batch returns, has launched the command
    of every file in order, has printed one verdict per file, and has set
    the progress to 1 at the end. *)
Lemma normalize_audio_all_started (input_files : list string) d :
  (forall f d', In f input_files -> os (command f) d' <> None) ->
  value (run input_files d) = Ok tt
  /\ popens (trace (run input_files d)) = map command input_files
  /\ exists tr, trace (run input_files d) = (tr ++ [Set_progress (of_int 1)])%list.
Proof.
  intros Hs. unfold run. rewrite normalize_audio_unfold. cbv zeta.
  destruct input_files as [|f rest].
  - repeat split. exists []. reflexivity.
  - destruct (for_enumerate_all_started format_float os output_dir ffmpeg_path
                target_lufs (List.length rest) (f :: rest) Hs 0 d) as [Hv Hc].
    cbn [List.length]. rewrite Hv. cbn [value trace].
    split; [reflexivity|]. split.
    + rewrite popens_app, Hc. cbn [popens]. apply app_nil_r.
    + eexists. reflexivity.
Qed.

(** The commands launched are those of a prefix of the files. *)
Lemma normalize_audio_popens (input_files : list string) d :
  exists k, popens (trace (run input_files d)) = map command (firstn k input_files).
Proof.
  unfold run. rewrite normalize_audio_unfold. cbv zeta.
  destruct input_files as [|f rest]; [exists 0; reflexivity|].
  destruct (for_enumerate_popens format_float os output_dir ffmpeg_path
              target_lufs (List.length rest) (f :: rest) 0 d) as [k Hk].
  exists k. cbn [List.length].
  destruct (value (for_enumerate _ 0 (f :: rest) d)); cbn [trace];
    rewrite ?popens_app, Hk; cbn [popens]; rewrite ?app_nil_r; reflexivity.
Qed.

(** Every message printed is the verdict on a file: the handler of line 96
    never prints. *)
Lemma handler_never_runs (input_files : list string) d (f : string) (e : exn) :
  ~ In (Failed f e) (prints (trace (run input_files d))).
Proof.
  unfold run. rewrite normalize_audio_unfold. cbv zeta.
  assert (Hp : Forall (fun m => exists g, In g input_files
                                 /\ (m = Created (output_path output_dir g)
                                     \/ m = Missing (output_path output_dir g)))
                 (prints (trace (for_enumerate
                    (process_file format_float os output_dir ffmpeg_path
                       target_lufs (List.length input_files)) 0 input_files d)))).
  { destruct input_files as [|g rest]; [constructor|].
    apply for_enumerate_prints. }
  intros Hin.
  assert (Hin' : In (Failed f e)
                   (prints (trace (for_enumerate
                      (process_file format_float os output_dir ffmpeg_path
                         target_lufs (List.length input_files)) 0 input_files d)))).
  { destruct (value (for_enumerate _ 0 input_files d)); cbn [trace] in Hin;
      [|exact Hin].
    rewrite prints_app in Hin. cbn [prints] in Hin.
    rewrite app_nil_r in Hin. exact Hin. }
  rewrite Forall_forall in Hp. destruct (Hp _ Hin') as (g & _ & [E|E]); discriminate E.
Qed.

(** A process that does not start ends the batch there. *)
Lemma start_failure_escapes (f : string) (rest : list string) d :
  os (command f) d = None ->
  value (run (f :: rest) d) = Raised OSError
  /\ trace (run (f :: rest) d) = [Popen (command f)].
Proof.
  intros Hn. unfold run. rewrite normalize_audio_unfold. cbv zeta.
  cbn [List.length].
  rewrite (for_enumerate_not_started format_float os output_dir ffmpeg_path
             target_lufs _ 0 f rest d Hn).
  split; reflexivity.
Qed.

End Runs.

(** C3. When all the files have been processed, that is when every process
    started, the batch returns and the last thing it does is to set the
    progress to exactly 1.0, whether or not the output files exist. *)
Theorem final_progress_is_one {F : Type} `{PyFloat F}
    (format_float : F -> string) (os : system) (input_files : list string)
    (output_dir ffmpeg_path : string) (target_lufs : F) (d : string -> bool)
    (Hstart : forall f d', In f input_files ->
        os (ffmpeg_command format_float ffmpeg_path f target_lufs
              (output_path output_dir f)) d' <> None) :
  value (normalize_audio format_float os input_files output_dir ffmpeg_path
           target_lufs d) = Ok tt
  /\ exists tr,
       trace (normalize_audio format_float os input_files output_dir ffmpeg_path
                target_lufs d)
       = (tr ++ [Set_progress (of_int 1)])%list.
Proof.
  destruct (normalize_audio_all_started format_float os output_dir ffmpeg_path
              target_lufs input_files d Hstart) as (Hv & _ & Ht).
  split; assumption.
Qed.

Lemma final_progress_is_one_witness :
  value (normalize_audio (F := float) Scenario.format_float Scenario.skips_b
           ["/in/a.wav"; "/in/b.wav"; "/in/c.wav"] "/out" "ffmpeg/ffmpeg.exe"
           (of_int (-19)) Scenario.no_files) = Ok tt
  /\ exists tr,
       trace (normalize_audio (F := float) Scenario.format_float Scenario.skips_b
                ["/in/a.wav"; "/in/b.wav"; "/in/c.wav"] "/out" "ffmpeg/ffmpeg.exe"
                (of_int (-19)) Scenario.no_files)
       = (tr ++ [Set_progress (of_int 1)])%list.
Proof.
  apply (final_progress_is_one (F := float)).
  intros f d' _. discriminate.
Defined.

Section Verdicts.

Context {F : Type} `{PyFloat F}.
Variable format_float : F -> string.
Variable os : system.
Variables output_dir ffmpeg_path : string.
Variable target_lufs : F.

Let command (input_file : string) : list string :=
  ffmpeg_command format_float ffmpeg_path input_file target_lufs
    (output_path output_dir input_file).

(** One verdict is printed per file whose process started. *)
Lemma for_enumerate_verdict_count (n : nat) (input_files : list string) :
  (forall f d, In f input_files -> os (command f) d <> None) ->
  forall i d,
    List.length
      (prints (trace (for_enumerate
         (process_file format_float os output_dir ffmpeg_path target_lufs (S n))
         i input_files d)))
    = List.length input_files.
Proof.
  induction input_files as [|f rest IH]; intros Hs i d; [reflexivity|].
  destruct (os (command f) d) as [p|] eqn:Hp.
  - rewrite (for_enumerate_started _ _ _ _ _ _ _ _ _ _ _ Hp). cbn [value trace].
    rewrite prints_app, (process_file_started _ _ _ _ _ _ _ _ _ _ Hp).
    cbn [trace prints]. rewrite prints_app, prints_set. cbn [prints app List.length].
    rewrite (IH (fun g d' Hg => Hs g d' (or_intror Hg))). reflexivity.
  - exfalso. exact (Hs f d (or_introl eq_refl) Hp).
Qed.

Lemma normalize_audio_verdict_count (input_files : list string) d :
  (forall f d', In f input_files -> os (command f) d' <> None) ->
  List.length
    (prints (trace (normalize_audio format_float os input_files output_dir
                      ffmpeg_path target_lufs d)))
  = List.length input_files.
Proof.
  intros Hs. rewrite normalize_audio_unfold. cbv zeta.
  destruct input_files as [|f rest]; [reflexivity|].
  destruct (for_enumerate_all_started format_float os output_dir ffmpeg_path
              target_lufs (List.length rest) (f :: rest) Hs 0 d) as [Hv _].
  cbn [List.length] in *. rewrite Hv. cbn [trace].
  rewrite prints_app. cbn [prints]. rewrite app_nil_r.
  apply (for_enumerate_verdict_count (List.length rest) (f :: rest) Hs).
Qed.

End Verdicts.

(** C4. What is recorded for a file depends on one thing, whether its
    output file exists once its process has exited: the exit status plays
    no part.  A missing output stops nothing: when every process starts,
    the command of every file is launched, in order, one verdict is printed
    per file, the batch returns and its last act sets the progress to 1.0. *)
Theorem output_file_decides_success {F : Type} `{PyFloat F}
    (format_float : F -> string) (os : system) (input_files : list string)
    (output_dir ffmpeg_path : string) (target_lufs : F) (d : string -> bool)
    (Hstart : forall f d', In f input_files ->
        os (ffmpeg_command format_float ffmpeg_path f target_lufs
              (output_path output_dir f)) d' <> None) :
  (forall n i f d' p,
      os (ffmpeg_command format_float ffmpeg_path f target_lufs
            (output_path output_dir f)) d' = Some p ->
      prints (trace (process_file format_float os output_dir ffmpeg_path
                       target_lufs (S n) i f d'))
      = [if leaves p (output_path output_dir f)
         then Created (output_path output_dir f)
         else Missing (output_path output_dir f)]
      /\ value (process_file format_float os output_dir ffmpeg_path
                  target_lufs (S n) i f d') = Ok tt)
  /\ popens (trace (normalize_audio format_float os input_files output_dir
                      ffmpeg_path target_lufs d))
     = map (fun f => ffmpeg_command format_float ffmpeg_path f target_lufs
                       (output_path output_dir f)) input_files
  /\ List.length (prints (trace (normalize_audio format_float os input_files
                                   output_dir ffmpeg_path target_lufs d)))
     = List.length input_files
  /\ value (normalize_audio format_float os input_files output_dir ffmpeg_path
              target_lufs d) = Ok tt
  /\ exists tr,
       trace (normalize_audio format_float os input_files output_dir ffmpeg_path
                target_lufs d)
       = (tr ++ [Set_progress (of_int 1)])%list.
Proof.
  destruct (normalize_audio_all_started format_float os output_dir ffmpeg_path
              target_lufs input_files d Hstart) as (Hv & Hc & Ht).
  split; [|split; [exact Hc|split; [|split; assumption]]].
  - intros n i f d' p Hp.
    rewrite (process_file_started _ _ _ _ _ _ _ _ _ _ Hp). cbn [trace value prints].
    rewrite prints_app, prints_set. split; reflexivity.
  - apply normalize_audio_verdict_count, Hstart.
Qed.

Lemma output_file_decides_success_witness :
  prints (trace (normalize_audio (F := float) Scenario.format_float Scenario.skips_b
                   ["/in/a.wav"; "/in/b.wav"; "/in/c.wav"] "/out"
                   "ffmpeg/ffmpeg.exe" (of_int (-19)) Scenario.no_files))
  = [Created "/out/a.mp3"; Missing "/out/b.mp3"; Created "/out/c.mp3"]
  /\ List.length
       (popens (trace (normalize_audio (F := float) Scenario.format_float
                         Scenario.skips_b ["/in/a.wav"; "/in/b.wav"; "/in/c.wav"]
                         "/out" "ffmpeg/ffmpeg.exe" (of_int (-19))
                         Scenario.no_files)))
     = 3
  /\ exists tr,
       trace (normalize_audio (F := float) Scenario.format_float Scenario.skips_b
                ["/in/a.wav"; "/in/b.wav"; "/in/c.wav"] "/out" "ffmpeg/ffmpeg.exe"
                (of_int (-19)) Scenario.no_files)
       = (tr ++ [Set_progress (of_int 1)])%list.
Proof.
  destruct (output_file_decides_success (F := float) Scenario.format_float
              Scenario.skips_b ["/in/a.wav"; "/in/b.wav"; "/in/c.wav"] "/out"
              "ffmpeg/ffmpeg.exe" (of_int (-19)) Scenario.no_files)
    as (_ & Hc & _ & _ & Ht).
  - intros f d' _. discriminate.
  - split; [vm_compute; reflexivity|]. split; [rewrite Hc; reflexivity|exact Ht].
Defined.

(** C9. The command built for a file is the binary, [-y], [-i], the input,
    [-af], the loudnorm filter with the target and the fixed [TP=-1] and
    [LRA=11], [-acodec], [libmp3lame] and the output, in that order; the
    commands that a batch launches are those of its first files, in order. *)
Theorem command_line_is_fixed {F : Type} `{PyFloat F}
    (format_float : F -> string) (os : system) (input_files : list string)
    (output_dir ffmpeg_path : string) (target_lufs : F) (d : string -> bool) :
  (forall input_file output_file,
      ffmpeg_command format_float ffmpeg_path input_file target_lufs output_file
      = [ ffmpeg_path; "-y"; "-i"; input_file; "-af";
          "loudnorm=I=" ++ format_float target_lufs ++ ":TP=-1:LRA=11";
          "-acodec"; "libmp3lame"; output_file ])
  /\ exists k,
       popens (trace (normalize_audio format_float os input_files output_dir
                        ffmpeg_path target_lufs d))
       = map (fun input_file =>
                [ ffmpeg_path; "-y"; "-i"; input_file; "-af";
                  "loudnorm=I=" ++ format_float target_lufs ++ ":TP=-1:LRA=11";
                  "-acodec"; "libmp3lame"; output_path output_dir input_file ])
             (firstn k input_files).
Proof.
  split; [reflexivity|].
  apply (normalize_audio_popens format_float os output_dir ffmpeg_path target_lufs).
Qed.

(** C10. The division by the stored duration is only made by a nonzero
    duration and never raises: on every stream the loop over the lines
    returns, and no batch stops on [ZeroDivisionError].  When every line
    that matches the [Duration:] pattern stands for zero seconds, the
    stream is read as if no duration were known: no progress is reported
    and the duration stored at the end is still unset or zero. *)
Theorem zero_duration_is_no_duration {F : Type} `{PyFloat F}
    (i n : nat) (lines : list string) (d : string -> bool)
    (Hzero : forall l g t, In l lines -> Re.search Re.duration_re l = Some g ->
                           seconds (F := F) g = Ok t -> nonzero t = false) :
  (forall duration lines',
      (exists final, value (scan (F := F) i (S n) duration lines' d) = Ok final)
      /\ Forall (fun r => nonzero (snd r) = true)
                (readings (F := F) duration lines'))
  /\ (forall format_float os input_files output_dir ffmpeg_path target_lufs,
        value (normalize_audio (F := F) format_float os input_files output_dir
                 ffmpeg_path target_lufs d)
        <> Raised ZeroDivisionError)
  /\ trace (scan (F := F) i (S n) None lines d) = []
  /\ exists final,
       value (scan (F := F) i (S n) None lines d) = Ok final /\ truthy final = false.
Proof.
  assert (Hz : forall l t, In l lines -> parse (F := F) Re.duration_re l = Some t ->
                           nonzero t = false).
  { intros l t Hl Hp. destruct (parse_inv _ _ _ Hp) as (g & Hg & Hs).
    exact (Hzero l g t Hl Hg Hs). }
  split; [|split; [|split]].
  - intros duration lines'. split; [|apply readings_nonzero].
    rewrite scan_spec. eexists. reflexivity.
  - intros format_float os input_files output_dir ffmpeg_path target_lufs.
    destruct (normalize_audio_value format_float os output_dir ffmpeg_path
                target_lufs input_files d) as [E|E]; rewrite E; discriminate.
  - rewrite scan_spec. cbn [trace].
    destruct (readings_falsy lines None eq_refl Hz) as [-> _]. reflexivity.
  - rewrite scan_spec. cbn [value]. eexists. split; [reflexivity|].
    apply (readings_falsy lines None eq_refl Hz).
Qed.

Lemma zero_duration_is_no_duration_witness :
  (forall duration lines',
      (exists final,
          value (scan (F := float) 0 1 duration lines' Scenario.no_files) = Ok final)
      /\ Forall (fun r => nonzero (snd r) = true)
                (readings (F := float) duration lines'))
  /\ (forall format_float os input_files output_dir ffmpeg_path target_lufs,
        value (normalize_audio (F := float) format_float os input_files output_dir
                 ffmpeg_path target_lufs Scenario.no_files)
        <> Raised ZeroDivisionError)
  /\ trace (scan (F := float) 0 1 None Scenario.zero_duration Scenario.no_files) = []
  /\ exists final,
       value (scan (F := float) 0 1 None Scenario.zero_duration Scenario.no_files)
       = Ok final
       /\ truthy final = false.
Proof.
  apply (zero_duration_is_no_duration 0 0 Scenario.zero_duration Scenario.no_files).
  intros l g t [<-|[<-|[]]] Hg Ht; vm_compute in Hg.
  - injection Hg as <-. vm_compute in Ht. injection Ht as <-. reflexivity.
  - discriminate Hg.
Defined.

(** C5. The claim holds of a process that exits abnormally, but not of one
    that fails to start: with the binary missing, [OSError] leaves
    [normalize_audio] at the first file, the second file is never tried
    and the progress is never set to 1.0. *)
Theorem missing_binary_stops_the_batch :
  value (normalize_audio (F := float) Scenario.format_float Scenario.no_binary
           ["/in/a.wav"; "/in/b.wav"] "/out" "ffmpeg/ffmpeg.exe" (of_int (-19))
           Scenario.no_files)
  = Raised OSError
  /\ trace (normalize_audio (F := float) Scenario.format_float Scenario.no_binary
              ["/in/a.wav"; "/in/b.wav"] "/out" "ffmpeg/ffmpeg.exe" (of_int (-19))
              Scenario.no_files)
     = [ Popen [ "ffmpeg/ffmpeg.exe"; "-y"; "-i"; "/in/a.wav"; "-af";
                 "loudnorm=I=-19.0:TP=-1:LRA=11"; "-acodec"; "libmp3lame";
                 "/out/a.mp3" ] ].
Proof. split; reflexivity. Qed.

(** ** Exact arithmetic *)

Section Rationals.

Lemma nonzero_Q (x : Q) : nonzero x = true <-> ~ (x == 0)%Q.
Proof.
  cbn. rewrite negb_true_iff. split.
  - intros E Hx. apply Qeq_bool_iff in Hx. congruence.
  - intros Hx. destruct (Qeq_bool x 0) eqn:E; [|reflexivity].
    apply Qeq_bool_iff in E. contradiction.
Qed.

Lemma files_positive (n : nat) : (0 < inject_Z (Z.of_nat (S n)))%Q.
Proof. unfold Qlt. simpl. lia. Qed.

Lemma inject_nat_S (i : nat) :
  (inject_Z (Z.of_nat (S i)) == inject_Z (Z.of_nat i) + 1)%Q.
Proof. rewrite Nat2Z.inj_succ. unfold Z.succ. rewrite inject_Z_plus. reflexivity. Qed.

Lemma inject_nonneg (z : Z) : (0 <= z)%Z -> (0 <= inject_Z z)%Q.
Proof. intros Hz. unfold Qle. simpl. lia. Qed.

Lemma hms_seconds_nonneg (h m c : Z) :
  (0 <= h)%Z -> (0 <= m)%Z -> (0 <= c)%Z -> (0 <= hms_seconds (F := Q) h m c)%Q.
Proof.
  intros Hh Hm Hc. unfold hms_seconds. cbn [add mul div of_int exact].
  apply inject_nonneg in Hh, Hm, Hc.
  change (inject_Z 3600) with 3600%Q. change (inject_Z 60) with 60%Q.
  change (inject_Z 100) with 100%Q.
  assert (0 <= inject_Z c / 100)%Q by (apply Qle_shift_div_l; lra).
  nra.
Qed.

Lemma parse_nonneg (lit line : string) (t : Q) :
  parse lit line = Some t -> (0 <= t)%Q.
Proof.
  intros Hp. destruct (parse_inv _ _ _ Hp) as (g & Hg & Hs).
  destruct (seconds_of_match (F := Q) _ _ _ Hg) as (h & m & c & Hr & Hs').
  rewrite Hs in Hs'. injection Hs' as ->.
  apply hms_seconds_nonneg; lia.
Qed.


Lemma next_duration_nonneg (duration : option Q) (line : string) :
  (forall x, duration = Some x -> (0 <= x)%Q) ->
  forall x, next_duration duration line = Some x -> (0 <= x)%Q.
Proof.
  intros Hd x. unfold next_duration.
  destruct (parse Re.duration_re line) as [t|] eqn:E; [|apply Hd].
  destruct (truthy duration); [apply Hd|].
  intros [= <-]. exact (parse_nonneg _ _ _ E).
Qed.

(** Every reading has a time that is not negative and a positive duration. *)
Lemma readings_positive (lines : list string) :
  forall duration : option Q,
    (forall x, duration = Some x -> (0 <= x)%Q) ->
    Forall (fun r => (0 <= fst r /\ 0 < snd r)%Q) (readings duration lines).
Proof.
  induction lines as [|l lines IH]; intros duration Hd; [constructor|].
  cbn [readings]. pose proof (next_duration_nonneg duration l Hd) as Hn.
  apply Forall_app. split; [|apply IH, Hn].
  unfold reading. destruct (parse Re.time_re l) as [t|] eqn:Et; [|constructor].
  destruct (next_duration duration l) as [x|]; [|constructor].
  destruct (nonzero x) eqn:Ex; [|constructor].
  constructor; [|constructor]. cbn [fst snd]. split.
  - exact (parse_nonneg _ _ _ Et).
  - apply nonzero_Q in Ex. specialize (Hn x eq_refl).
    destruct (Qlt_le_dec 0 x) as [Hlt|Hle]; [exact Hlt|].
    exfalso. apply Ex. apply Qle_antisym; assumption.
Qed.

Lemma position_Q (i n : nat) (t x : Q) :
  ~ (x == 0)%Q ->
  (position (F := Q) i (S n) (t, x)
   == (t / x + inject_Z (Z.of_nat i)) / inject_Z (Z.of_nat (S n)))%Q.
Proof.
  intros Hx. unfold position. cbn [fst snd add mul div of_int exact].
  pose proof (files_positive n).
  field. split; [assumption|lra].
Qed.

Lemma div_le_div (a b c : Q) : (0 < c -> a <= b -> a / c <= b / c)%Q.
Proof.
  intros Hc Hab. apply Qle_shift_div_l; [exact Hc|].
  setoid_replace (a / c * c)%Q with a by (field; lra). exact Hab.
Qed.

Lemma div_lt_div (a b c : Q) : (0 < c -> a < b -> a / c < b / c)%Q.
Proof.
  intros Hc Hab. apply Qlt_shift_div_l; [exact Hc|].
  setoid_replace (a / c * c)%Q with a by (field; lra). exact Hab.
Qed.

(** A time below the duration is placed in the slot of its file. *)
Lemma position_in_slot (i n : nat) (t x : Q) :
  (0 <= t)%Q -> (t < x)%Q -> in_slot i (S n) (position i (S n) (t, x)).
Proof.
  intros Ht Hx. unfold in_slot.
  assert (Hpos : (0 < x)%Q) by lra.
  rewrite (position_Q i n t x) by lra.
  rewrite (inject_nat_S i).
  pose proof (files_positive n) as HN.
  assert (0 <= t / x)%Q by (apply Qle_shift_div_l; lra).
  assert (t / x < 1)%Q by (apply Qlt_shift_div_r; lra).
  split; [apply div_le_div|apply div_lt_div]; lra.
Qed.

(** Against one duration, a later time is placed further on. *)
Lemma position_monotone (i n : nat) (t t' x : Q) :
  (0 < x)%Q -> (t <= t')%Q ->
  (position i (S n) (t, x) <= position i (S n) (t', x))%Q.
Proof.
  intros Hx Ht.
  rewrite (position_Q i n t x), (position_Q i n t' x) by lra.
  pose proof (files_positive n) as HN.
  apply div_le_div; [exact HN|].
  assert (t / x <= t' / x)%Q by (apply div_le_div; assumption).
  lra.
Qed.

Lemma nondecreasing_app (l1 l2 : list Q) (b : Q) :
  nondecreasing l1 -> nondecreasing l2 ->
  Forall (fun v => (v <= b)%Q) l1 -> Forall (fun v => (b <= v)%Q) l2 ->
  nondecreasing (l1 ++ l2).
Proof.
  intros H1 H2 Hl1 Hl2. induction l1 as [|a l1 IH]; [exact H2|].
  inversion Hl1 as [|? ? Ha Hl1']; subst.
  destruct l1 as [|a' l1].
  - cbn [app]. destruct l2 as [|c l2]; [exact I|].
    inversion Hl2; subst. split; [lra|exact H2].
  - destruct H1 as [Haa H1]. cbn [app nondecreasing] in *.
    split; [exact Haa|]. apply IH; assumption.
Qed.

Lemma positions_nondecreasing (i n : nat) (x : Q) (l : list (Q * Q)) :
  (0 < x)%Q -> Forall (fun r => snd r = x) l -> nondecreasing (map fst l) ->
  nondecreasing (map (position i (S n)) l).
Proof.
  intros Hx. induction l as [|[t y] l IH]; intros Hs Hn; [exact I|].
  inversion Hs as [|? ? Hy Hs']; subst. cbn [snd] in *.
  destruct l as [|[t' y'] l]; [exact I|].
  inversion Hs' as [|? ? Hy' _]; subst. cbn [snd map fst nondecreasing] in *.
  destruct Hn as [Ht Hn]. split.
  - apply position_monotone; assumption.
  - apply IH; assumption.
Qed.

(** The progress reported along one well-timed stream. *)
Lemma stream_progress (i n : nat) (lines : list string) :
  well_timed lines ->
  Forall (in_slot i (S n)) (map (position i (S n)) (readings None lines))
  /\ nondecreasing (map (position i (S n)) (readings None lines)).
Proof.
  intros [Hb Hn].
  assert (Hpos : Forall (fun r => (0 <= fst r /\ 0 < snd r)%Q) (readings None lines))
    by (apply readings_positive; discriminate).
  split.
  - rewrite Forall_forall in *. intros v Hv.
    apply in_map_iff in Hv. destruct Hv as ([t x] & <- & Hr).
    apply position_in_slot; [apply (Hpos _ Hr)|apply (Hb _ Hr)].
  - destruct (readings_same_duration lines (None : option Q)) as [x [[Hx Hs]|He]].
    + destruct (readings None lines) as [|r l] eqn:E; [exact I|].
      apply (positions_nondecreasing i n x); try assumption.
      inversion Hs; subst. inversion Hpos as [|? ? [_ Hr] _]; subst. exact Hr.
    + rewrite He. exact I.
Qed.

Lemma slot_bounds (i n : nat) (v : Q) :
  in_slot i (S n) v ->
  (inject_Z (Z.of_nat i) / inject_Z (Z.of_nat (S n)) <= v
   /\ v <= inject_Z (Z.of_nat (S i)) / inject_Z (Z.of_nat (S n)))%Q.
Proof. unfold in_slot. intros [Hl Hu]. split; lra. Qed.

End Rationals.

Section Progress.


Variable format_float : Q -> string.
Variable os : system.
Variables output_dir ffmpeg_path : string.
Variable target_lufs : Q.

Hypothesis timed : forall c d p, os c d = Some p -> well_timed (stderr p).

Lemma process_file_progress (n i : nat) (f : string) d :
  let vals := progress_values (trace (process_file format_float os output_dir
                 ffmpeg_path target_lufs (S n) i f d)) in
  Forall (in_slot i (S n)) vals /\ nondecreasing vals.
Proof.
  cbv zeta.
  destruct (os (ffmpeg_command format_float ffmpeg_path f target_lufs
                  (output_path output_dir f)) d) as [p|] eqn:Hp.
  - rewrite (process_file_started _ _ _ _ _ _ _ _ _ _ Hp). cbn [trace progress_values].
    rewrite progress_values_app, progress_values_set. cbn [progress_values].
    rewrite app_nil_r. apply stream_progress, (timed _ _ _ Hp).
  - rewrite (process_file_not_started _ _ _ _ _ _ _ _ _ Hp). split; constructor.
Qed.

Lemma for_enumerate_progress (n : nat) (input_files : list string) :
  forall i d,
    let vals := progress_values (trace (for_enumerate
                   (process_file format_float os output_dir ffmpeg_path
                      target_lufs (S n)) i input_files d)) in
    nondecreasing vals
    /\ Forall (fun v => (inject_Z (Z.of_nat i) / inject_Z (Z.of_nat (S n)) <= v)%Q) vals
    /\ Forall (fun v => (v <= inject_Z (Z.of_nat (i + List.length input_files))
                             / inject_Z (Z.of_nat (S n)))%Q) vals.
Proof.
  induction input_files as [|f rest IH]; intros i d; cbv zeta.
  - repeat split; constructor.
  - pose proof (files_positive n) as HN.
    destruct (os (ffmpeg_command format_float ffmpeg_path f target_lufs
                    (output_path output_dir f)) d) as [p|] eqn:Hp.
    + rewrite (for_enumerate_started _ _ _ _ _ _ _ _ _ _ _ Hp). cbn [trace].
      rewrite progress_values_app.
      destruct (process_file_progress n i f d) as [Hslot Hnd].
      destruct (IH (S i) (leaves p)) as (Hnd' & Hlo & Hhi).
      cbn [List.length]. replace (i + S (List.length rest)) with (S i + List.length rest) by lia.
      assert (Hstep : (inject_Z (Z.of_nat i) / inject_Z (Z.of_nat (S n))
                       <= inject_Z (Z.of_nat (S i)) / inject_Z (Z.of_nat (S n)))%Q).
      { apply div_le_div; [exact HN|]. rewrite (inject_nat_S i). lra. }
      assert (Hlast : (inject_Z (Z.of_nat (S i)) / inject_Z (Z.of_nat (S n))
                       <= inject_Z (Z.of_nat (S i + List.length rest))
                          / inject_Z (Z.of_nat (S n)))%Q).
      { apply div_le_div; [exact HN|]. rewrite <- Zle_Qle. lia. }
      split; [|split].
      * apply (nondecreasing_app _ _
                 (inject_Z (Z.of_nat (S i)) / inject_Z (Z.of_nat (S n))));
          try assumption.
        eapply Forall_impl; [|exact Hslot]. intros v Hv. apply slot_bounds, Hv.
      * apply Forall_app. split.
        -- eapply Forall_impl; [|exact Hslot]. intros v Hv. apply slot_bounds, Hv.
        -- eapply Forall_impl; [|exact Hlo]. cbv beta. intros v Hv. lra.
      * apply Forall_app. split.
        -- eapply Forall_impl; [|exact Hslot]. intros v Hv.
           apply slot_bounds in Hv. lra.
        -- exact Hhi.
    + rewrite (for_enumerate_not_started _ _ _ _ _ _ _ _ _ _ Hp).
      repeat split; constructor.
Qed.

Lemma normalize_audio_progress (input_files : list string) d :
  nondecreasing (progress_values (trace (normalize_audio format_float os
     input_files output_dir ffmpeg_path target_lufs d))).
Proof.
  rewrite normalize_audio_unfold. cbv zeta.
  destruct input_files as [|f rest]; [exact I|].
  cbn [List.length].
  destruct (for_enumerate_progress (List.length rest) (f :: rest) 0 d)
    as (Hnd & _ & Hhi).
  destruct (value (for_enumerate _ 0 (f :: rest) d)); cbn [trace]; [|exact Hnd].
  rewrite progress_values_app. cbn [progress_values].
  apply (nondecreasing_app _ _ 1%Q); [exact Hnd|exact I| |repeat constructor].
  - eapply Forall_impl; [|exact Hhi]. cbv beta. intros v Hv.
    cbn [List.length Nat.add] in Hv.
    setoid_replace (inject_Z (Z.of_nat (S (List.length rest)))
                    / inject_Z (Z.of_nat (S (List.length rest))))%Q with 1%Q in Hv.
    + exact Hv.
    + pose proof (files_positive (List.length rest)). field. lra.
  - apply Qle_refl.
Qed.

End Progress.

(** C2. With a nonzero duration stored, a line that matches the [time=]
    pattern yields exactly one progress update, the slot start [i/N] plus
    the fraction elapsed over duration divided by [N], where elapsed is
    hours * 3600 + minutes * 60 + seconds.  One minute of audio, half of it
    done, in a batch of one file: the progress reported is 0.5, on binary64
    and in exact arithmetic. *)
Theorem time_line_reports_position (i n : nat) (stored : Q)
    (line g1 g2 g3 : string) (d : string -> bool)
    (Hknown : ~ (stored == 0)%Q)
    (Hline : Re.search Re.time_re line = Some (g1, g2, g3)) :
  (exists h m s p : Q,
      py_float g1 = Ok h /\ py_float g2 = Ok m /\ py_float g3 = Ok s
      /\ trace (scan (F := Q) i (S n) (Some stored) [line] d) = [Set_progress p]
      /\ (p == inject_Z (Z.of_nat i) / inject_Z (Z.of_nat (S n))
               + ((h * 3600 + m * 60 + s) / stored) / inject_Z (Z.of_nat (S n)))%Q)
  /\ progress_values
       (trace (normalize_audio (F := float) Scenario.format_float
                 (Scenario.always Scenario.half_way) ["/x/song.wav"] "/y"
                 "ffmpeg/ffmpeg.exe" (of_int (-19)) Scenario.no_files))
     = [0.5%float; 1%float]
  /\ exists p : Q,
       progress_values
         (trace (normalize_audio (F := Q) Scenario.format_float
                   (Scenario.always Scenario.half_way) ["/x/song.wav"] "/y"
                   "ffmpeg/ffmpeg.exe" (of_int (-19)) Scenario.no_files))
       = [p; 1%Q]
       /\ (p == 1 # 2)%Q.
Proof.
  split; [|split; [reflexivity|]].
  - destruct (search_numeric (F := Q) _ _ _ Hline)
      as (h & m & c & _ & H1 & H2 & H3).
    cbn [fst snd] in H1, H2, H3.
    exists (of_int h), (of_int m), (div (of_int c) (of_int 100)).
    eexists. split; [exact H1|]. split; [exact H2|]. split; [exact H3|].
    assert (Hp : parse (F := Q) Re.time_re line = Some (hms_seconds h m c))
      by (unfold parse, seconds; rewrite Hline, H1, H2, H3; reflexivity).
    apply nonzero_Q in Hknown as Hnz.
    rewrite scan_spec. cbn [trace readings].
    rewrite (next_duration_kept (Some stored) line Hnz).
    unfold reading. rewrite Hp, Hnz. cbn [map app].
    split; [reflexivity|].
    rewrite (position_Q i n _ stored Hknown).
    pose proof (files_positive n). unfold hms_seconds.
    cbn [add mul div of_int exact]. field. split; [assumption|lra].
  - eexists. split; [vm_compute; reflexivity|reflexivity].
Qed.

Lemma time_line_reports_position_witness :
  (exists h m s p : Q,
      py_float "00" = Ok h /\ py_float "00" = Ok m /\ py_float "30.00" = Ok s
      /\ trace (scan (F := Q) 0 1 (Some 60%Q) [nth 1 Scenario.half_way ""]
                  Scenario.no_files)
         = [Set_progress p]
      /\ (p == inject_Z (Z.of_nat 0) / inject_Z (Z.of_nat 1)
               + ((h * 3600 + m * 60 + s) / 60) / inject_Z (Z.of_nat 1))%Q)
  /\ progress_values
       (trace (normalize_audio (F := float) Scenario.format_float
                 (Scenario.always Scenario.half_way) ["/x/song.wav"] "/y"
                 "ffmpeg/ffmpeg.exe" (of_int (-19)) Scenario.no_files))
     = [0.5%float; 1%float]
  /\ exists p : Q,
       progress_values
         (trace (normalize_audio (F := Q) Scenario.format_float
                   (Scenario.always Scenario.half_way) ["/x/song.wav"] "/y"
                   "ffmpeg/ffmpeg.exe" (of_int (-19)) Scenario.no_files))
       = [p; 1%Q]
       /\ (p == 1 # 2)%Q.
Proof.
  apply (time_line_reports_position 0 0 60%Q (nth 1 Scenario.half_way "")
           "00" "00" "30.00" Scenario.no_files).
  - intros E. vm_compute in E. discriminate E.
  - reflexivity.
Defined.

(** C1, as stated, fails.  A process whose last report is 50 ms past the
    announced duration, as an encoder that pads its output gives, takes the
    first file of two out of its slot [0, 1/2), and the first report of the
    second file, 1/2, is then a step back; so it is on binary64. *)
Lemma progress_leaves_slot_and_falls :
  ~ Forall (in_slot 0 2)
      (progress_values (trace (process_file (F := Q) Scenario.format_float
         (Scenario.always Scenario.overrun) "/out" "ffmpeg/ffmpeg.exe"
         (of_int (-19)) 2 0 "/in/a.wav" Scenario.no_files)))
  /\ ~ nondecreasing
         (progress_values (trace (normalize_audio (F := Q) Scenario.format_float
            (Scenario.always Scenario.overrun) ["/in/a.wav"; "/in/b.wav"] "/out"
            "ffmpeg/ffmpeg.exe" (of_int (-19)) Scenario.no_files)))
  /\ map (PrimFloat.leb 0.5)
         (progress_values (trace (normalize_audio (F := float) Scenario.format_float
            (Scenario.always Scenario.overrun) ["/in/a.wav"; "/in/b.wav"] "/out"
            "ffmpeg/ffmpeg.exe" (of_int (-19)) Scenario.no_files)))
     = [false; true; true; true; true]
  /\ map (PrimFloat.ltb 0.5)
         (progress_values (trace (normalize_audio (F := float) Scenario.format_float
            (Scenario.always Scenario.overrun) ["/in/a.wav"; "/in/b.wav"] "/out"
            "ffmpeg/ffmpeg.exe" (of_int (-19)) Scenario.no_files)))
     = [false; true; false; true; true].
Proof.
  split; [|split; [|split; reflexivity]].
  - intros H. inversion H as [|? ? _ H']; subst.
    inversion H' as [|? ? [_ Hu] _]; subst.
    vm_compute in Hu. discriminate Hu.
  - vm_compute. intros (_ & H & _). apply H. reflexivity.
Qed.

(** C1, amended. When the times that every process reports grow and stay
    below the duration stored when they are read, every progress value
    reported while file [i] of [N] is processed lies in [i/N, (i+1)/N), and
    the progress values of a batch run never decrease. *)
Theorem progress_stays_in_slot_and_grows
    (format_float : Q -> string) (os : system) (input_files : list string)
    (output_dir ffmpeg_path : string) (target_lufs : Q) (d : string -> bool)
    (Htimed : forall c d' p, os c d' = Some p -> well_timed (stderr p)) :
  (forall n i f d',
      Forall (in_slot i (S n))
        (progress_values (trace (process_file format_float os output_dir
                                   ffmpeg_path target_lufs (S n) i f d'))))
  /\ nondecreasing
       (progress_values (trace (normalize_audio format_float os input_files
                                  output_dir ffmpeg_path target_lufs d))).
Proof.
  split.
  - intros n i f d'.
    apply (process_file_progress format_float os output_dir ffmpeg_path
             target_lufs Htimed n i f d').
  - apply normalize_audio_progress, Htimed.
Qed.

Lemma progress_stays_in_slot_and_grows_witness :
  (forall n i f d',
      Forall (in_slot i (S n))
        (progress_values (trace (process_file (F := Q) Scenario.format_float
                                   (Scenario.always Scenario.half_way) "/out"
                                   "ffmpeg/ffmpeg.exe" (of_int (-19)) (S n) i f d'))))
  /\ nondecreasing
       (progress_values (trace (normalize_audio (F := Q) Scenario.format_float
                                  (Scenario.always Scenario.half_way)
                                  ["/in/a.wav"; "/in/b.wav"] "/out"
                                  "ffmpeg/ffmpeg.exe" (of_int (-19))
                                  Scenario.no_files))).
Proof.
  apply (progress_stays_in_slot_and_grows Scenario.format_float
           (Scenario.always Scenario.half_way)).
  intros c d' p [= <-]. split.
  - repeat constructor.
  - exact I.
Defined.

(** ** Paths, further *)

Section MorePaths.

Lemma length_app (s t : string) :
  String.length (s ++ t) = String.length s + String.length t.
Proof. induction s as [|a s IH]; simpl; [reflexivity|]. rewrite IH. reflexivity. Qed.

Lemma endswith_app (s suffix : string) : Text.endswith suffix (s ++ suffix) = true.
Proof.
  unfold Text.endswith. rewrite length_app.
  replace (String.length s + String.length suffix - String.length suffix)
    with (String.length s) by lia.
  rewrite drop_app, String.eqb_refl, andb_true_r. apply Nat.leb_le. lia.
Qed.

Lemma mem_drop_after_last (c : ascii) (p : string) :
  forall k, Str.rfind c p = Some k -> Str.mem c (Str.drop (S k) p) = false.
Proof.
  induction p as [|a p IH]; intros k; simpl; [discriminate|].
  destruct (Str.rfind c p) as [j|] eqn:E.
  - intros [= <-]. apply IH. reflexivity.
  - destruct (Ascii.eqb a c); [|discriminate]. intros [= <-]. simpl.
    clear IH. induction p as [|b p IHp]; [reflexivity|].
    simpl in E. destruct (Str.rfind c p) as [j|]; [discriminate|].
    destruct (Ascii.eqb b c) eqn:Eb; [discriminate|].
    destruct p; simpl; rewrite Eb; simpl; [reflexivity|]. apply IHp. reflexivity.
Qed.

Lemma mem_absent (c : ascii) (p : string) :
  Str.rfind c p = None -> Str.mem c p = false.
Proof.
  induction p as [|a p IH]; simpl; [reflexivity|].
  destruct (Str.rfind c p); [discriminate|].
  destruct (Ascii.eqb a c); [discriminate|]. intros _. apply IH. reflexivity.
Qed.

(** A base name holds no separator. *)
Lemma basename_no_sep (p : string) : Str.mem Path.sep (Path.basename p) = false.
Proof.
  unfold Path.basename. destruct (Str.rfind Path.sep p) as [k|] eqn:E.
  - apply mem_drop_after_last, E.
  - apply mem_absent, E.
Qed.

Lemma mem_take (c : ascii) (s : string) :
  Str.mem c s = false -> forall n, Str.mem c (Str.take n s) = false.
Proof.
  induction s as [|a s IH]; intros Hm n; destruct n; simpl; try reflexivity.
  simpl in Hm. apply orb_false_iff in Hm. destruct Hm as [Ha Hs].
  rewrite Ha. simpl. apply IH, Hs.
Qed.

(** Neither does its stem. *)
Lemma stem_no_sep (b : string) :
  Str.mem Path.sep b = false -> Str.mem Path.sep (fst (Path.splitext b)) = false.
Proof.
  intros Hb. unfold Path.splitext.
  destruct (Str.rfind Path.extsep b) as [k|]; [|exact Hb].
  match goal with |- context [if ?c then _ else _] => destruct c end; [|exact Hb].
  apply mem_take, Hb.
Qed.

End MorePaths.

(** X2. Whatever the input path is, the output file is a name ending in
    [.mp3] that holds no separator, put straight after the output
    directory: no input path sends its output into another directory. *)
Theorem output_stays_in_output_dir (output_dir input_file : string) :
  exists name,
    Str.mem Path.sep name = false
    /\ Text.endswith ".mp3" name = true
    /\ (output_path output_dir input_file = output_dir ++ name
        \/ output_path output_dir input_file = output_dir ++ "/" ++ name).
Proof.
  exists (fst (Path.splitext (Path.basename input_file)) ++ ".mp3").
  pose proof (stem_no_sep _ (basename_no_sep input_file)) as Hs.
  split; [rewrite mem_app, Hs; reflexivity|].
  split; [apply endswith_app|].
  unfold output_path, Path.join.
  rewrite (startswith_app Path.sep _ ".mp3" Hs eq_refl).
  destruct ((output_dir =? "") || Str.endswith Path.sep output_dir); auto.
Qed.


(** X3. Two inputs with the same stem, in whatever directories and with
    whatever extensions, are given the same output path. *)
Theorem same_stem_same_output (output_dir dir dir' stem ext ext' : string)
    (Hstem : Str.mem Path.sep stem = false)
    (Hname : Str.has_other Path.extsep stem = true)
    (Hsep : Str.mem Path.sep ext = false)
    (Hext : Str.mem Path.extsep ext = false)
    (Hsep' : Str.mem Path.sep ext' = false)
    (Hext' : Str.mem Path.extsep ext' = false) :
  output_path output_dir (dir ++ "/" ++ stem ++ "." ++ ext)
  = output_path output_dir (dir' ++ "/" ++ stem ++ "." ++ ext').
Proof.
  unfold output_path.
  rewrite !basename_of
    by (rewrite mem_app; simpl; rewrite Hstem, ?Hsep, ?Hsep'; reflexivity).
  rewrite (splitext_of _ _ Hstem Hname Hsep Hext).
  rewrite (splitext_of _ _ Hstem Hname Hsep' Hext'). reflexivity.
Qed.

Lemma same_stem_same_output_witness :
  output_path "/out" ("/cd1" ++ "/" ++ "track01" ++ "." ++ "wav")
  = output_path "/out" ("/cd2" ++ "/" ++ "track01" ++ "." ++ "ogg").
Proof.
  apply (same_stem_same_output "/out" "/cd1" "/cd2" "track01" "wav" "ogg");
    reflexivity.
Defined.

Lemma position_at_least_start (i n : nat) (t x : Q) :
  (0 <= t)%Q -> (0 < x)%Q ->
  (inject_Z (Z.of_nat i) / inject_Z (Z.of_nat (S n)) <= position i (S n) (t, x))%Q.
Proof.
  intros Ht Hx. rewrite (position_Q i n t x) by lra.
  pose proof (files_positive n) as HN.
  assert (0 <= t / x)%Q by (apply Qle_shift_div_l; lra).
  apply div_le_div; lra.
Qed.

(** X1. In exact arithmetic and on every stream, no progress value reported
    while file [i] of [N] is processed is below [i/N]: only the upper end of
    the slot can be passed. *)
Theorem progress_never_below_slot_start
    (format_float : Q -> string) (os : system) (output_dir ffmpeg_path : string)
    (target_lufs : Q) (n i : nat) (input_file : string) (d : string -> bool) :
  Forall (fun v => (inject_Z (Z.of_nat i) / inject_Z (Z.of_nat (S n)) <= v)%Q)
    (progress_values (trace (process_file format_float os output_dir ffmpeg_path
                               target_lufs (S n) i input_file d))).
Proof.
  destruct (os (ffmpeg_command format_float ffmpeg_path input_file target_lufs
                  (output_path output_dir input_file)) d) as [p|] eqn:Hp.
  - rewrite (process_file_started _ _ _ _ _ _ _ _ _ _ Hp). cbn [trace progress_values].
    rewrite progress_values_app, progress_values_set. cbn [progress_values].
    rewrite app_nil_r.
    assert (Hpos : Forall (fun r => (0 <= fst r /\ 0 < snd r)%Q)
                     (readings None (stderr p)))
      by (apply readings_positive; discriminate).
    rewrite Forall_forall in *. intros v Hv.
    apply in_map_iff in Hv. destruct Hv as ([t x] & <- & Hr).
    apply position_at_least_start; apply (Hpos _ Hr).
  - rewrite (process_file_not_started _ _ _ _ _ _ _ _ _ Hp). constructor.
Qed.


(** ** How a run ends *)

Section Ends.

Context {F : Type} `{PyFloat F}.
Variable format_float : F -> string.
Variable os : system.
Variables output_dir ffmpeg_path : string.
Variable target_lufs : F.



End Ends.


(** ** Text handling *)

Section Texts.

Lemma split_not_nil (c : ascii) (s : string) : Text.split c s <> [].
Proof.
  destruct s as [|a s]; simpl; [discriminate|].
  destruct (Ascii.eqb a c); [discriminate|].
  destruct (Text.split c s); discriminate.
Qed.

(** Only the empty text splits into one empty piece. *)
Lemma split_one_empty (c : ascii) (s : string) :
  Text.split c s = [EmptyString] -> s = EmptyString.
Proof.
  destruct s as [|a s]; simpl; [reflexivity|].
  destruct (Ascii.eqb a c).
  - intros [= E]. destruct (split_not_nil _ _ E).
  - destruct (Text.split c s); discriminate.
Qed.

Lemma split_no_sep (c : ascii) (s : string) :
  Str.mem c s = false -> Text.split c s = [s].
Proof.
  induction s as [|a s IH]; simpl; [reflexivity|].
  intros Hm. apply orb_false_iff in Hm. destruct Hm as [Ha Hs].
  rewrite Ha, (IH Hs). reflexivity.
Qed.

Lemma split_app (c : ascii) (s t : string) :
  Str.mem c s = false ->
  Text.split c (s ++ String c t) = s :: Text.split c t.
Proof.
  induction s as [|a s IH]; simpl.
  - intros _. rewrite Ascii.eqb_refl. reflexivity.
  - intros Hm. apply orb_false_iff in Hm. destruct Hm as [Ha Hs].
    rewrite Ha, (IH Hs). reflexivity.
Qed.

(** Splitting undoes joining, for pieces that do not hold the separator. *)
Lemma split_join (c : ascii) (l : list string) :
  l <> [] -> Forall (fun s => Str.mem c s = false) l ->
  Text.split c (Text.join (String c EmptyString) l) = l.
Proof.
  induction l as [|s l IH]; [contradiction|]. intros _ Hl.
  inversion Hl as [|? ? Hs Hl']; subst.
  destruct l as [|s' l]; [apply split_no_sep, Hs|].
  change (Text.join (String c EmptyString) (s :: s' :: l))
    with (s ++ String c (Text.join (String c EmptyString) (s' :: l))).
  rewrite (split_app _ _ _ Hs), IH; [reflexivity|discriminate|exact Hl'].
Qed.

Lemma lstrip_solid (s : string) : Text.starts_solid s = true -> Text.lstrip s = s.
Proof.
  destruct s as [|a s]; simpl; [discriminate|].
  intros Ha. apply negb_true_iff in Ha. rewrite Ha. reflexivity.
Qed.

Lemma lstrip_empty (s : string) :
  Text.lstrip s = EmptyString -> Text.all_space s = true.
Proof.
  induction s as [|a s IH]; simpl; [reflexivity|].
  destruct (Text.is_space a); [exact IH|discriminate].
Qed.

Lemma lstrip_all_space (s : string) :
  Text.all_space s = true -> Text.lstrip s = EmptyString.
Proof.
  induction s as [|a s IH]; simpl; [reflexivity|].
  destruct (Text.is_space a); [exact IH|discriminate].
Qed.

Lemma lstrip_shape (s : string) :
  Text.lstrip s = EmptyString \/ Text.starts_solid (Text.lstrip s) = true.
Proof.
  induction s as [|a s IH]; simpl; [left; reflexivity|].
  destruct (Text.is_space a) eqn:E; [exact IH|].
  right. simpl. rewrite E. reflexivity.
Qed.

Lemma rstrip_empty (s : string) :
  Text.rstrip s = EmptyString -> Text.all_space s = true.
Proof.
  induction s as [|a s IH]; simpl; [reflexivity|].
  destruct (Text.rstrip s); [|discriminate].
  destruct (Text.is_space a); [intros _; apply IH; reflexivity|discriminate].
Qed.

Lemma rstrip_all_space (s : string) :
  Text.all_space s = true -> Text.rstrip s = EmptyString.
Proof.
  induction s as [|a s IH]; simpl; [reflexivity|].
  intros Hs. apply andb_true_iff in Hs. destruct Hs as [Ha Hs].
  rewrite (IH Hs), Ha. reflexivity.
Qed.

Lemma rstrip_solid (s : string) : Text.ends_solid s = true -> Text.rstrip s = s.
Proof.
  induction s as [|a s IH]; [discriminate|].
  destruct s as [|b s].
  - simpl. intros Ha. apply negb_true_iff in Ha. rewrite Ha. reflexivity.
  - intros Hs. change (Text.ends_solid (String a (String b s)))
      with (Text.ends_solid (String b s)) in Hs.
    change (Text.rstrip (String a (String b s)))
      with (match Text.rstrip (String b s) with
            | EmptyString =>
                if Text.is_space a then EmptyString else String a EmptyString
            | kept => String a kept
            end).
    rewrite (IH Hs). reflexivity.
Qed.

Lemma rstrip_app_space (s t : string) :
  Text.all_space t = true -> Text.rstrip (s ++ t) = Text.rstrip s.
Proof.
  intros Ht. induction s as [|a s IH]; simpl.
  - apply rstrip_all_space, Ht.
  - rewrite IH. reflexivity.
Qed.

Lemma all_space_starts (s : string) :
  Text.starts_solid s = true -> Text.all_space s = false.
Proof.
  destruct s as [|a s]; simpl; [discriminate|].
  intros Ha. apply negb_true_iff in Ha. rewrite Ha. reflexivity.
Qed.

(** What [strip] leaves is empty exactly when the text is blank. *)
Lemma strip_empty (s : string) :
  Text.strip s = EmptyString <-> Text.all_space s = true.
Proof.
  unfold Text.strip. split.
  - intros E. apply rstrip_empty in E.
    destruct (lstrip_shape s) as [E'|E']; [apply lstrip_empty, E'|].
    rewrite (all_space_starts _ E') in E. discriminate.
  - intros Hs. rewrite (lstrip_all_space _ Hs). reflexivity.
Qed.

Lemma all_space_app (s t : string) :
  Text.all_space (s ++ t) = Text.all_space s && Text.all_space t.
Proof.
  induction s as [|a s IH]; simpl; [reflexivity|].
  rewrite IH, andb_assoc. reflexivity.
Qed.

Lemma ends_solid_app (s t : string) :
  t <> EmptyString -> Text.ends_solid (s ++ t) = Text.ends_solid t.
Proof.
  intros Ht. induction s as [|a s IH]; [reflexivity|].
  simpl. destruct (s ++ t) eqn:E; [|exact IH].
  destruct s; [|discriminate E]. simpl in E. contradiction.
Qed.

Lemma starts_solid_app (s t : string) :
  Text.starts_solid s = true -> Text.starts_solid (s ++ t) = true.
Proof. destruct s; simpl; [discriminate|auto]. Qed.


Lemma words_one (s : string) :
  Text.no_space s = true -> s <> EmptyString -> Text.words s = [s].
Proof.
  induction s as [|a s IH]; [contradiction|]. intros Hs _.
  simpl in Hs. apply andb_true_iff in Hs. destruct Hs as [Ha Hs].
  apply negb_true_iff in Ha. cbn [Text.words]. rewrite Ha.
  destruct s as [|b s]; [reflexivity|].
  pose proof Hs as Hs'. simpl in Hs'. apply andb_true_iff in Hs'.
  destruct Hs' as [Hb _]. apply negb_true_iff in Hb. rewrite Hb.
  rewrite (IH Hs); [reflexivity|discriminate].
Qed.

Lemma words_app (s t : string) :
  Text.no_space s = true -> s <> EmptyString ->
  Text.words (s ++ " " ++ t) = s :: Text.words t.
Proof.
  induction s as [|a s IH]; [contradiction|]. intros Hs _.
  simpl in Hs. apply andb_true_iff in Hs. destruct Hs as [Ha Hs].
  apply negb_true_iff in Ha.
  destruct s as [|b s].
  - cbn [append Text.words]. rewrite Ha. reflexivity.
  - pose proof Hs as Hs'. simpl in Hs'. apply andb_true_iff in Hs'.
    destruct Hs' as [Hb _]. apply negb_true_iff in Hb.
    assert (IH' := IH Hs ltac:(discriminate)).
    cbn [append] in IH' |- *.
    cbn [Text.words]. cbn [Text.words] in IH'. rewrite Ha, Hb.
    rewrite Hb in IH'. rewrite IH'. reflexivity.
Qed.

(** Names without spaces, joined by spaces, come back as the words. *)
Lemma words_join (names : list string) :
  Forall (fun t => Text.no_space t = true /\ t <> EmptyString) names ->
  Text.words (Text.join " " names) = names.
Proof.
  induction 1 as [|s l [Hs Hn] _ IH]; [reflexivity|].
  destruct l as [|s' l]; [apply words_one; assumption|].
  change (Text.join " " (s :: s' :: l)) with (s ++ " " ++ Text.join " " (s' :: l)).
  rewrite (words_app _ _ Hs Hn), IH. reflexivity.
Qed.

End Texts.

(** ** The list of files *)

Section Lists.

Lemma append_nil (s : string) : s ++ EmptyString = s.
Proof. induction s as [|a s IH]; simpl; [reflexivity|]. rewrite IH. reflexivity. Qed.

Lemma append_assoc (s t u : string) : (s ++ t) ++ u = s ++ t ++ u.
Proof. induction s as [|a s IH]; simpl; [reflexivity|]. rewrite IH. reflexivity. Qed.

Lemma file_lines_join (files : list string) :
  files <> [] -> file_lines files = Text.join Text.nl files ++ Text.nl.
Proof.
  induction files as [|f rest IH]; [contradiction|]. intros _.
  destruct rest as [|g rest]; [cbn [file_lines Text.join]; apply append_nil|].
  change (file_lines (f :: g :: rest)) with ((f ++ Text.nl) ++ file_lines (g :: rest)).
  rewrite IH by discriminate.
  change (Text.join Text.nl (f :: g :: rest))
    with (f ++ Text.nl ++ Text.join Text.nl (g :: rest)).
  rewrite !append_assoc. reflexivity.
Qed.

Lemma file_lines_app (l l' : list string) :
  file_lines (l ++ l') = file_lines l ++ file_lines l'.
Proof.
  induction l as [|f l IH]; [reflexivity|].
  cbn [app file_lines]. rewrite IH, !append_assoc. reflexivity.
Qed.

Lemma ends_solid_join (files : list string) :
  Text.ends_solid (List.last files EmptyString) = true ->
  Text.ends_solid (Text.join Text.nl files) = true.
Proof.
  induction files as [|f rest IH]; [discriminate|].
  destruct rest as [|g rest]; [auto|].
  intros Hl. change (List.last (f :: g :: rest) EmptyString)
    with (List.last (g :: rest) EmptyString) in Hl.
  specialize (IH Hl).
  change (Text.join Text.nl (f :: g :: rest))
    with (f ++ Text.nl ++ Text.join Text.nl (g :: rest)).
  rewrite ends_solid_app by discriminate.
  destruct (Text.join Text.nl (g :: rest)) eqn:E; [discriminate IH|exact IH].
Qed.

(** The names inserted one per line are read back as they were. *)
Lemma read_files_of_lines (w : widgets) (first : string) (rest : list string) :
  files_text w = file_lines (first :: rest) ->
  Text.starts_solid first = true ->
  Text.ends_solid (List.last (first :: rest) EmptyString) = true ->
  Forall (fun f => Str.mem "010"%char f = false) (first :: rest) ->
  read_files w = first :: rest.
Proof.
  intros Ht Hs He Hn. unfold read_files, get_all, Text.strip.
  rewrite Ht, file_lines_join by discriminate.
  rewrite lstrip_solid.
  - rewrite !rstrip_app_space by reflexivity.
    rewrite rstrip_solid by (apply ends_solid_join, He).
    apply (split_join "010"%char); [discriminate|exact Hn].
  - apply starts_solid_app, starts_solid_app.
    destruct rest; [exact Hs|].
    change (Text.join Text.nl (first :: s :: rest))
      with (first ++ Text.nl ++ Text.join Text.nl (s :: rest)).
    apply starts_solid_app, Hs.
Qed.

Lemma insert_files_spec (files : list string) :
  forall w,
    files_text (insert_files files w) = files_text w ++ file_lines files
    /\ output_dir_entry (insert_files files w) = output_dir_entry w
    /\ target_lufs_spinbox (insert_files files w) = target_lufs_spinbox w.
Proof.
  induction files as [|f rest IH]; intros w.
  - cbn [insert_files file_lines]. rewrite append_nil. auto.
  - cbn [insert_files file_lines]. destruct (IH (insert_end (f ++ Text.nl) w)) as (-> & -> & ->).
    cbn [insert_end files_text output_dir_entry target_lufs_spinbox].
    rewrite !append_assoc. auto.
Qed.

End Lists.

Section Dropping.

Lemma drop_loop_spec (files : list string) :
  forall w,
    files_text (drop_loop files w)
    = files_text w ++ file_lines (filter is_audio files)
    /\ output_dir_entry (drop_loop files w) = output_dir_entry w
    /\ target_lufs_spinbox (drop_loop files w) = target_lufs_spinbox w.
Proof.
  induction files as [|f rest IH]; intros w.
  - cbn [drop_loop filter file_lines]. rewrite append_nil. auto.
  - cbn [drop_loop filter]. destruct (is_audio f).
    + destruct (IH (insert_end (f ++ Text.nl) w)) as (-> & -> & ->).
      cbn [insert_end files_text output_dir_entry target_lufs_spinbox file_lines].
      rewrite !append_assoc. auto.
    + apply IH.
Qed.

Lemma no_space_starts (s : string) :
  Text.no_space s = true -> s <> EmptyString -> Text.starts_solid s = true.
Proof.
  destruct s as [|a s]; [contradiction|]. simpl. intros Hs _.
  apply andb_true_iff in Hs. tauto.
Qed.

Lemma no_space_ends (s : string) :
  Text.no_space s = true -> s <> EmptyString -> Text.ends_solid s = true.
Proof.
  induction s as [|a s IH]; [contradiction|]. intros Hs _.
  simpl in Hs. apply andb_true_iff in Hs. destruct Hs as [Ha Hs].
  destruct s as [|b s]; [exact Ha|]. apply IH; [exact Hs|discriminate].
Qed.

Lemma no_space_no_newline (s : string) :
  Text.no_space s = true -> Str.mem "010"%char s = false.
Proof.
  induction s as [|a s IH]; [reflexivity|]. simpl. intros Hs.
  apply andb_true_iff in Hs. destruct Hs as [Ha Hs]. rewrite (IH Hs), orb_false_r.
  destruct (Ascii.eqb a "010"%char) eqn:E; [|reflexivity].
  apply Ascii.eqb_eq in E. subst a. discriminate Ha.
Qed.

Lemma last_in (l : list string) (x : string) : l <> [] -> In (List.last l x) l.
Proof.
  induction l as [|a l IH]; [contradiction|]. intros _.
  destruct l as [|b l]; [left; reflexivity|]. right. apply IH. discriminate.
Qed.

(** Solid names, one per line, are read back as they were. *)
Lemma read_files_of_solid_lines (w : widgets) (names : list string) :
  names <> [] ->
  Forall (fun t => Text.no_space t = true /\ t <> EmptyString) names ->
  files_text w = file_lines names ->
  read_files w = names.
Proof.
  intros Hne Hall Ht. destruct names as [|first rest]; [contradiction|].
  rewrite Forall_forall in Hall.
  apply (read_files_of_lines w first rest Ht).
  - destruct (Hall first (or_introl eq_refl)). apply no_space_starts; assumption.
  - destruct (Hall _ (last_in (first :: rest) EmptyString Hne)).
    apply no_space_ends; assumption.
  - apply Forall_forall. intros f Hf. apply no_space_no_newline, (Hall f Hf).
Qed.

End Dropping.



(** X10. Names without spaces, dropped with spaces between them: the
    audio names among them are appended to the list in order, and dropped
    onto an empty list they are what [start_processing] reads back. *)
Theorem dropped_names_are_read_back (names : list string) (w : widgets)
    (Hnames : Forall (fun t => Text.no_space t = true /\ t <> EmptyString) names)
    (Haudio : filter is_audio names <> []) :
  files_text (drop (Text.join " " names) w)
  = files_text w ++ file_lines (filter is_audio names)
  /\ read_files (drop (Text.join " " names) (delete_all w)) = filter is_audio names.
Proof.
  unfold drop. rewrite (words_join names Hnames). split.
  - apply drop_loop_spec.
  - apply read_files_of_solid_lines; [exact Haudio| |].
    + apply Forall_forall. intros f Hf. apply filter_In in Hf.
      rewrite Forall_forall in Hnames. apply Hnames, Hf.
    + destruct (drop_loop_spec names (delete_all w)) as (-> & _). reflexivity.
Qed.

Lemma dropped_names_are_read_back_witness :
  files_text (drop (Text.join " " ["/in/a.WAV"; "notes.txt"; "/in/b.ogg"]) Desk.empty)
  = files_text Desk.empty
    ++ file_lines (filter is_audio ["/in/a.WAV"; "notes.txt"; "/in/b.ogg"])
  /\ read_files (drop (Text.join " " ["/in/a.WAV"; "notes.txt"; "/in/b.ogg"])
                   (delete_all Desk.empty))
     = filter is_audio ["/in/a.WAV"; "notes.txt"; "/in/b.ogg"].
Proof.
  apply (dropped_names_are_read_back ["/in/a.WAV"; "notes.txt"; "/in/b.ogg"]
           Desk.empty).
  - repeat constructor; discriminate.
  - discriminate.
Defined.

(** ** Starting a batch *)

Section Starting.

Context {F : Type} `{PyFloat F}.
Variable makedirs : string -> (string -> bool) -> option (string -> bool).
Variable startfile : string -> (string -> bool) -> bool.
Variable float_of_text : string -> result F.
Variable format_float : F -> string.
Variable os : system.

(** The guard of line 128 is passed exactly by a list that is not blank. *)
Lemma no_files_selected_blank (w : widgets) :
  no_files_selected (read_files w) = Text.all_space (files_text w).
Proof.
  unfold read_files, get_all.
  destruct (Text.all_space (files_text w)) eqn:E.
  - assert (Hs : Text.strip (files_text w ++ Text.nl) = EmptyString)
      by (apply strip_empty; rewrite all_space_app, E; reflexivity).
    rewrite Hs. reflexivity.
  - destruct (Text.split "010"%char (Text.strip (files_text w ++ Text.nl)))
      as [|[|a s] [|g l]] eqn:Es; try reflexivity.
    + destruct (split_not_nil _ _ Es).
    + apply split_one_empty, strip_empty in Es.
      rewrite all_space_app, E in Es. discriminate Es.
Qed.

Lemma read_files_not_nil (w : widgets) : read_files w <> [].
Proof. apply split_not_nil. Qed.

Lemma ensure_directory_events (path : string) d (e : gui_event F) :
  In e (fst (ensure_directory (F := F) makedirs path d)) -> e = Makedirs path.
Proof.
  unfold ensure_directory. destruct (d path); simpl; [contradiction|].
  intros [<-|[]]. reflexivity.
Qed.

(** The events of a start that is not refused, by cases. *)
Lemma start_processing_cases (w : widgets) d :
  Text.all_space (files_text w) = false ->
  let o := start_processing makedirs startfile float_of_text format_float os w d in
  let evs := fst (ensure_directory (F := F) makedirs (output_dir_entry w) d) in
  match snd (ensure_directory (F := F) makedirs (output_dir_entry w) d) with
  | None => shown o = evs /\ raised o = Some OSError
  | Some d' =>
      match float_of_text (target_lufs_spinbox w) with
      | Raised e => shown o = evs /\ raised o = Some e
      | Ok t =>
          shown o
          = (evs ++ Progress_reset
                 :: fst (process_thread startfile format_float os (read_files w)
                           (output_dir_entry w) (Path.join "ffmpeg" "ffmpeg.exe") t d'))%list
          /\ raised o = None
          /\ files_on_disk o
             = snd (process_thread startfile format_float os (read_files w)
                      (output_dir_entry w) (Path.join "ffmpeg" "ffmpeg.exe") t d')
      end
  end.
Proof.
  intros Hb. cbv zeta. unfold start_processing.
  rewrite no_files_selected_blank, Hb.
  destruct (ensure_directory (F := F) makedirs (output_dir_entry w) d) as [evs [d'|]];
    cbn [fst snd]; [|split; reflexivity].
  destruct (float_of_text (target_lufs_spinbox w)) as [t|e]; [|split; reflexivity].
  destruct (process_thread _ _ _ _ _ _ _ _) as [evs' d'']. cbn [fst snd shown raised files_on_disk].
  repeat split.
Qed.

Lemma worker_events_app (l l' : list (gui_event F)) :
  worker_events (l ++ l') = (worker_events l ++ worker_events l')%list.
Proof.
  induction l as [|[e| | | | |] l IH]; cbn [app worker_events]; rewrite ?IH; reflexivity.
Qed.

Lemma worker_events_map (tr : list (event F)) :
  worker_events (map Worker tr) = tr.
Proof. induction tr as [|e tr IH]; simpl; rewrite ?IH; reflexivity. Qed.

Lemma worker_events_directory (path : string) d :
  worker_events (fst (ensure_directory (F := F) makedirs path d)) = [].
Proof. unfold ensure_directory. destruct (d path); reflexivity. Qed.

End Starting.

(** X7. [start_processing] refuses exactly the lists that are blank: for
    those it shows the warning and does nothing else, and for no other
    list does it show the warning. *)
Theorem blank_list_is_refused {F : Type} `{PyFloat F}
    (makedirs : string -> (string -> bool) -> option (string -> bool))
    (startfile : string -> (string -> bool) -> bool)
    (float_of_text : string -> result F) (format_float : F -> string)
    (os : system) (w : widgets) (d : string -> bool) :
  if Text.all_space (files_text w)
  then start_processing makedirs startfile float_of_text format_float os w d
       = {| shown := [Showwarning]; raised := None; window := w; files_on_disk := d |}
  else ~ In Showwarning
           (shown (start_processing makedirs startfile float_of_text format_float
                     os w d)).
Proof.
  destruct (Text.all_space (files_text w)) eqn:Hb.
  - unfold start_processing. rewrite no_files_selected_blank, Hb. reflexivity.
  - pose proof (start_processing_cases makedirs startfile float_of_text
                  format_float os w d Hb) as Hc.
    cbv zeta in Hc. intros Hin.
    assert (Hdir : ~ In Showwarning
                     (fst (ensure_directory (F := F) makedirs (output_dir_entry w) d)))
      by (intros Hi; apply ensure_directory_events in Hi; discriminate Hi).
    destruct (snd (ensure_directory (F := F) makedirs (output_dir_entry w) d))
      as [d'|].
    + destruct (float_of_text (target_lufs_spinbox w)) as [t|e].
      * destruct Hc as (Hs & _). rewrite Hs in Hin.
        apply in_app_or in Hin. destruct Hin as [Hin|[Hin|Hin]];
          [exact (Hdir Hin)|discriminate Hin|].
        unfold process_thread in Hin.
        destruct (value (normalize_audio _ _ _ _ _ _ _)); cbn [fst] in Hin.
        -- apply in_app_or in Hin. destruct Hin as [Hin|[Hin|[Hin|Hin]]];
             try discriminate Hin.
           ++ apply in_map_iff in Hin. destruct Hin as (x & Hx & _). discriminate Hx.
           ++ destruct (startfile _ _); [destruct Hin as [Hin|[]]; discriminate Hin|
                                         destruct Hin].
        -- apply in_map_iff in Hin. destruct Hin as (x & Hx & _). discriminate Hx.
      * destruct Hc as (Hs & _). rewrite Hs in Hin. exact (Hdir Hin).
    + destruct Hc as (Hs & _). rewrite Hs in Hin. exact (Hdir Hin).
Qed.

(** X13. [start_processing] has no effect of [normalize_audio], no launch in
    particular, unless the list is not blank, the output directory exists
    or could be made, and the text of the spinbox is a number; then it has
    reset the progress before the first of them and raises nothing. *)
Theorem nothing_runs_on_bad_input {F : Type} `{PyFloat F}
    (makedirs : string -> (string -> bool) -> option (string -> bool))
    (startfile : string -> (string -> bool) -> bool)
    (float_of_text : string -> result F) (format_float : F -> string)
    (os : system) (w : widgets) (d : string -> bool) (e : event F)
    (Hrun : In (Worker e)
              (shown (start_processing makedirs startfile float_of_text
                        format_float os w d))) :
  Text.all_space (files_text w) = false
  /\ (exists d', snd (ensure_directory (F := F) makedirs (output_dir_entry w) d)
                 = Some d')
  /\ (exists t, float_of_text (target_lufs_spinbox w) = Ok t)
  /\ raised (start_processing makedirs startfile float_of_text format_float os w d)
     = None
  /\ exists evs,
       shown (start_processing makedirs startfile float_of_text format_float os w d)
       = (fst (ensure_directory (F := F) makedirs (output_dir_entry w) d)
          ++ Progress_reset :: evs)%list.
Proof.
  pose proof (blank_refusal := no_files_selected_blank w).
  destruct (Text.all_space (files_text w)) eqn:Hb.
  - exfalso. unfold start_processing in Hrun. rewrite blank_refusal in Hrun.
    destruct Hrun as [Hr|[]]. discriminate Hr.
  - pose proof (start_processing_cases makedirs startfile float_of_text
                  format_float os w d Hb) as Hc.
    cbv zeta in Hc.
    assert (Hdir : ~ In (Worker e)
                     (fst (ensure_directory (F := F) makedirs (output_dir_entry w) d)))
      by (intros Hi; apply ensure_directory_events in Hi; discriminate Hi).
    destruct (snd (ensure_directory (F := F) makedirs (output_dir_entry w) d))
      as [d'|].
    + destruct (float_of_text (target_lufs_spinbox w)) as [t|x].
      * destruct Hc as (Hs & Hr & _).
        split; [reflexivity|]. split; [exists d'; reflexivity|].
        split; [exists t; reflexivity|]. split; [exact Hr|].
        eexists. exact Hs.
      * exfalso. destruct Hc as (Hs & _). rewrite Hs in Hrun. exact (Hdir Hrun).
    + exfalso. destruct Hc as (Hs & _). rewrite Hs in Hrun. exact (Hdir Hrun).
Qed.

(** X11. A start that is not refused, with the directory there, the target
    a number and every process starting: the commands launched are those of
    the files read from the list, in order; the progress is set to 1.0,
    then the dialog is shown, then the folder is opened, and only if that
    worked is the progress reset to 0.  Nothing is raised. *)
Theorem completion_follows_the_batch {F : Type} `{PyFloat F}
    (makedirs : string -> (string -> bool) -> option (string -> bool))
    (startfile : string -> (string -> bool) -> bool)
    (float_of_text : string -> result F) (format_float : F -> string)
    (os : system) (w : widgets) (d d' : string -> bool) (t : F)
    (Hfiles : Text.all_space (files_text w) = false)
    (Hdir : snd (ensure_directory (F := F) makedirs (output_dir_entry w) d) = Some d')
    (Hnum : float_of_text (target_lufs_spinbox w) = Ok t)
    (Hstart : forall f d'', In f (read_files w) ->
        os (ffmpeg_command format_float (Path.join "ffmpeg" "ffmpeg.exe") f t
              (output_path (output_dir_entry w) f)) d'' <> None) :
  popens (worker_events
            (shown (start_processing makedirs startfile float_of_text format_float
                      os w d)))
  = map (fun f => ffmpeg_command format_float (Path.join "ffmpeg" "ffmpeg.exe") f t
                    (output_path (output_dir_entry w) f))
        (read_files w)
  /\ raised (start_processing makedirs startfile float_of_text format_float os w d)
     = None
  /\ exists evs,
       shown (start_processing makedirs startfile float_of_text format_float os w d)
       = (evs
          ++ [Worker (Set_progress (of_int 1));
              Showinfo (output_dir_entry w);
              Startfile (output_dir_entry w)]
          ++ (if startfile (output_dir_entry w)
                   (files_on_disk (start_processing makedirs startfile float_of_text
                                     format_float os w d))
              then [Progress_reset]
              else []))%list.
Proof.
  pose proof (start_processing_cases makedirs startfile float_of_text
                format_float os w d Hfiles) as Hc.
  cbv zeta in Hc. rewrite Hdir, Hnum in Hc. destruct Hc as (Hs & Hr & Hd).
  destruct (normalize_audio_all_started format_float os (output_dir_entry w)
              (Path.join "ffmpeg" "ffmpeg.exe") t (read_files w) d' Hstart)
    as (Hv & Hp & tr & Ht).
  unfold process_thread in Hs, Hd. rewrite Hv in Hs, Hd. cbn [fst snd] in Hs, Hd.
  split; [|split; [exact Hr|]].
  - rewrite Hs, worker_events_app, (worker_events_directory makedirs).
    cbn [app worker_events]. rewrite worker_events_app, worker_events_map.
    rewrite popens_app, Hp.
    destruct (startfile _ _); cbn [worker_events popens]; apply app_nil_r.
  - rewrite Hd, Hs, Ht, map_app. cbn [map].
    exists (fst (ensure_directory (F := F) makedirs (output_dir_entry w) d)
            ++ Progress_reset :: map Worker tr)%list.
    rewrite <- !app_assoc. reflexivity.
Qed.


(** X8. When [select_files] returns with a choice made, the list holds the
    chosen names, one per line, in place of what it held, and
    [start_processing] reads back exactly those names, provided that none
    holds a newline, the first does not begin with a space and the last
    does not end with one.  The other widgets are left alone. *)
Theorem chosen_files_are_read_back {F : Type}
    (makedirs : string -> (string -> bool) -> option (string -> bool))
    (cwd first : string) (rest : list string) (w : widgets) (d : string -> bool)
    (Hret : raised (select_files (F := F) makedirs cwd (first :: rest) w d) = None)
    (Hfirst : Text.starts_solid first = true)
    (Hlast : Text.ends_solid (List.last (first :: rest) EmptyString) = true)
    (Hline : Forall (fun f => Str.mem "010"%char f = false) (first :: rest)) :
  files_text (window (select_files (F := F) makedirs cwd (first :: rest) w d))
  = file_lines (first :: rest)
  /\ read_files (window (select_files (F := F) makedirs cwd (first :: rest) w d))
     = first :: rest
  /\ output_dir_entry (window (select_files (F := F) makedirs cwd (first :: rest) w d))
     = output_dir_entry w
  /\ target_lufs_spinbox
       (window (select_files (F := F) makedirs cwd (first :: rest) w d))
     = target_lufs_spinbox w.
Proof.
  unfold select_files in *.
  destruct (ensure_directory (F := F) makedirs (Path.join cwd "input") d)
    as [evs [d'|]]; [|discriminate Hret].
  cbn [window].
  destruct (insert_files_spec (first :: rest) (delete_all w)) as (Ht & Ho & Hs).
  cbn [delete_all files_text output_dir_entry target_lufs_spinbox append] in Ht, Ho, Hs.
  split; [exact Ht|]. split; [|split; assumption].
  apply read_files_of_lines; assumption.
Qed.

Lemma chosen_files_are_read_back_witness :
  files_text (window (select_files (F := float) Desk.makes "/home/me"
                        ["/music/a b.wav"; "/music/c.ogg"] Desk.empty
                        Scenario.no_files))
  = file_lines ["/music/a b.wav"; "/music/c.ogg"]
  /\ read_files (window (select_files (F := float) Desk.makes "/home/me"
                           ["/music/a b.wav"; "/music/c.ogg"] Desk.empty
                           Scenario.no_files))
     = ["/music/a b.wav"; "/music/c.ogg"]
  /\ output_dir_entry (window (select_files (F := float) Desk.makes "/home/me"
                                 ["/music/a b.wav"; "/music/c.ogg"] Desk.empty
                                 Scenario.no_files))
     = output_dir_entry Desk.empty
  /\ target_lufs_spinbox
       (window (select_files (F := float) Desk.makes "/home/me"
                  ["/music/a b.wav"; "/music/c.ogg"] Desk.empty Scenario.no_files))
     = target_lufs_spinbox Desk.empty.
Proof.
  apply (chosen_files_are_read_back (F := float) Desk.makes "/home/me"
           "/music/a b.wav" ["/music/c.ogg"] Desk.empty Scenario.no_files).
  - reflexivity.
  - reflexivity.
  - reflexivity.
  - repeat constructor.
Defined.

Lemma nothing_runs_on_bad_input_witness :
  Text.all_space (files_text (drop "/in/a.wav /in/b.wav" Desk.empty)) = false
  /\ (exists d',
        snd (ensure_directory (F := float) Desk.makes
               (output_dir_entry (drop "/in/a.wav /in/b.wav" Desk.empty))
               Scenario.no_files)
        = Some d')
  /\ (exists t : float,
        Desk.reads (target_lufs_spinbox (drop "/in/a.wav /in/b.wav" Desk.empty))
        = Ok t)
  /\ raised (start_processing (F := float) Desk.makes Desk.opens Desk.reads
               Scenario.format_float Scenario.skips_b
               (drop "/in/a.wav /in/b.wav" Desk.empty) Scenario.no_files)
     = None
  /\ exists evs,
       shown (start_processing (F := float) Desk.makes Desk.opens Desk.reads
                Scenario.format_float Scenario.skips_b
                (drop "/in/a.wav /in/b.wav" Desk.empty) Scenario.no_files)
       = (fst (ensure_directory (F := float) Desk.makes
                 (output_dir_entry (drop "/in/a.wav /in/b.wav" Desk.empty))
                 Scenario.no_files)
          ++ Progress_reset :: evs)%list.
Proof.
  apply (nothing_runs_on_bad_input (F := float) Desk.makes Desk.opens Desk.reads
           Scenario.format_float Scenario.skips_b
           (drop "/in/a.wav /in/b.wav" Desk.empty) Scenario.no_files
           (Print (Missing "/out/b.mp3"))).
  vm_compute. do 7 right. left. reflexivity.
Defined.

Lemma completion_follows_the_batch_witness :
  popens (worker_events
            (shown (start_processing (F := float) Desk.makes Desk.opens Desk.reads
                      Scenario.format_float Scenario.skips_b
                      (drop "/in/a.wav /in/b.wav" Desk.empty) Scenario.no_files)))
  = map (fun f => ffmpeg_command Scenario.format_float
                    (Path.join "ffmpeg" "ffmpeg.exe") f (of_int (-19))
                    (output_path (output_dir_entry
                                    (drop "/in/a.wav /in/b.wav" Desk.empty)) f))
        (read_files (drop "/in/a.wav /in/b.wav" Desk.empty))
  /\ raised (start_processing (F := float) Desk.makes Desk.opens Desk.reads
               Scenario.format_float Scenario.skips_b
               (drop "/in/a.wav /in/b.wav" Desk.empty) Scenario.no_files)
     = None
  /\ exists evs,
       shown (start_processing (F := float) Desk.makes Desk.opens Desk.reads
                Scenario.format_float Scenario.skips_b
                (drop "/in/a.wav /in/b.wav" Desk.empty) Scenario.no_files)
       = (evs
          ++ [Worker (Set_progress (of_int 1));
              Showinfo (output_dir_entry (drop "/in/a.wav /in/b.wav" Desk.empty));
              Startfile (output_dir_entry (drop "/in/a.wav /in/b.wav" Desk.empty))]
          ++ (if Desk.opens (output_dir_entry (drop "/in/a.wav /in/b.wav" Desk.empty))
                   (files_on_disk
                      (start_processing (F := float) Desk.makes Desk.opens
                         Desk.reads Scenario.format_float Scenario.skips_b
                         (drop "/in/a.wav /in/b.wav" Desk.empty) Scenario.no_files))
              then [Progress_reset]
              else []))%list.
Proof.
  apply (completion_follows_the_batch (F := float) Desk.makes Desk.opens Desk.reads
           Scenario.format_float Scenario.skips_b
           (drop "/in/a.wav /in/b.wav" Desk.empty) Scenario.no_files
           (fun p => (p =? "/out") || Scenario.no_files p) (of_int (-19))).
  - reflexivity.
  - reflexivity.
  - reflexivity.
  - intros f d'' _. discriminate.
Defined.


(** ** Lines that say nothing, and the names that are audio *)

Section Noise.

Context {F : Type} `{PyFloat F}.

Lemma irrelevant_line (duration : option F) (line : string) :
  relevant line = false ->
  next_duration duration line = duration /\ reading duration line = [].
Proof.
  unfold relevant. intros Hr.
  destruct (Re.search Re.duration_re line) eqn:Ed; [discriminate|].
  destruct (Re.search Re.time_re line) eqn:Et; [discriminate|].
  split; [apply next_duration_no_match, Ed|].
  unfold reading. rewrite (parse_no_match _ _ Et). reflexivity.
Qed.

Lemma readings_relevant (lines : list string) :
  forall duration : option F,
    readings duration (filter relevant lines) = readings duration lines
    /\ final_duration duration (filter relevant lines) = final_duration duration lines.
Proof.
  induction lines as [|l lines IH]; intros duration; [split; reflexivity|].
  cbn [filter]. destruct (relevant l) eqn:Hr.
  - cbn [readings]. unfold final_duration. cbn [fold_left].
    destruct (IH (next_duration duration l)) as [-> Hf]. split; [reflexivity|exact Hf].
  - destruct (irrelevant_line duration l Hr) as [Hn He].
    cbn [readings]. unfold final_duration. cbn [fold_left].
    rewrite Hn, He. apply IH.
Qed.

End Noise.

(** X5. The lines in which neither pattern matches count for nothing:
    reading a stream and reading it with those lines taken out report the
    same progress and store the same duration. *)
Theorem other_lines_are_ignored {F : Type} `{PyFloat F}
    (i n : nat) (duration : option F) (lines : list string) (d : string -> bool) :
  scan i (S n) duration (filter relevant lines) d = scan i (S n) duration lines d.
Proof.
  rewrite !scan_spec.
  destruct (readings_relevant lines duration) as [-> ->]. reflexivity.
Qed.

Section Audio.

Lemma lower_app (s t : string) : Text.lower (s ++ t) = Text.lower s ++ Text.lower t.
Proof. induction s as [|a s IH]; simpl; [reflexivity|]. rewrite IH. reflexivity. Qed.

Lemma lower_length (s : string) : String.length (Text.lower s) = String.length s.
Proof. induction s as [|a s IH]; simpl; [reflexivity|]. rewrite IH. reflexivity. Qed.

Lemma take_drop (n : nat) (s : string) : Str.take n s ++ Str.drop n s = s.
Proof.
  revert s. induction n as [|n IH]; intros [|a s]; simpl; try reflexivity.
  rewrite IH. reflexivity.
Qed.

Lemma lower_drop (n : nat) (s : string) :
  Text.lower (Str.drop n s) = Str.drop n (Text.lower s).
Proof.
  revert s. induction n as [|n IH]; intros [|a s]; simpl; try reflexivity.
  apply IH.
Qed.

End Audio.

(** X6. [drop] takes a name for an audio file exactly when it ends in one
    of [.m4a], [.aac], [.wav], [.mp3], [.ogg] written in any mix of upper
    and lower case. *)
Theorem audio_names_end_in_an_extension (file : string) :
  is_audio file = true
  <-> exists stem ext,
        file = stem ++ ext /\ In (Text.lower ext) audio_extensions.
Proof.
  unfold is_audio. rewrite existsb_exists. split.
  - intros (suffix & Hin & He).
    exists (Str.take (String.length file - String.length suffix) file),
           (Str.drop (String.length file - String.length suffix) file).
    split; [symmetry; apply take_drop|].
    unfold Text.endswith in He. apply andb_true_iff in He. destruct He as [_ He].
    apply String.eqb_eq in He. rewrite lower_length in He.
    rewrite lower_drop, He. exact Hin.
  - intros (stem & ext & -> & Hin).
    exists (Text.lower ext). split; [exact Hin|].
    rewrite lower_app. apply endswith_app.
Qed.
